(** * Incremental knowledge synchronisation: a shallow embedding

    The development embeds the two Python modules of the repository,
    [create_bot_knowledge.py] and [srcopsmetrics/storage.py], and proves
    properties of the embedded functions.

    Conventions of the embedding:
    - a Python [str] is a [string]; only ASCII text is modelled;
    - a Python [int] is an integer of [Z]; the bound an interpreter may put
      on the number of digits of a decimal literal is taken to be off;
    - a Python exception is a value of [exn], and a function that may raise
      returns a [result]; a function that acts on the files and raises
      leaves the state it reached in the exception;
    - a Python [dict] is an association list in insertion order, with the
      update operation of [dict.__setitem__];
    - a Python [set] of strings or integers is a [gset];
    - the local file system and the object store are finite maps that are
      threaded through the functions that touch them. *)

From Stdlib Require Import ZArith String Ascii DecimalString DecimalPos Floats.
From stdpp Require Import base option gmap sets list strings.

Set Warnings "-register-all".

Open Scope string_scope.
Open Scope Z_scope.
Open Scope list_scope.

(** ** Exceptions and results *)

Inductive exn : Set :=
| IndexError
| ValueError
| KeyError
| TypeError
| AttributeError
| AssertionError
| JSONDecodeError
| NotFoundError.

(** What a call gives: the value it returns, or the exception it raises
    together with the state it leaves behind. A function that acts on no
    state has [unit] there. *)
Inductive outcome (S A : Type) : Type :=
| Ok (a : A)
| Raised (e : exn) (s : S).
Arguments Ok {S A} a.
Arguments Raised {S A} e s.

Abbreviation result := (outcome unit).
Abbreviation Raise e := (Raised e tt).

#[global] Instance result_ret {S} : MRet (outcome S) := λ A a, Ok a.
#[global] Instance result_bind {S} : MBind (outcome S) := λ A B f r,
  match r with
  | Ok a => f a
  | Raised e s => Raised e s
  end.
#[global] Instance result_fmap {S} : FMap (outcome S) := λ A B f r,
  match r with
  | Ok a => Ok (f a)
  | Raised e s => Raised e s
  end.

(** A call of a function that acts on no state, made in the state [s]: its
    exception leaves [s] behind. *)
Definition in_state {S A} (s : S) (r : result A) : outcome S A :=
  match r with
  | Ok a => Ok a
  | Raised e _ => Raised e s
  end.

(** The state an exception leaves, as the caller has it. *)
Definition raised_state {S T A} (f : S → T) (r : outcome S A) : outcome T A :=
  match r with
  | Ok a => Ok a
  | Raised e s => Raised e (f s)
  end.

(** [o ?! e]: the value of [o], or the exception [e] when there is none. *)
Definition or_raise {A} (o : option A) (e : exn) : result A :=
  match o with
  | Some a => Ok a
  | None => Raise e
  end.
Infix "?!" := or_raise (at level 45, left associativity).

(** [assert b]. *)
Definition assert (b : bool) : result unit :=
  if b then Ok tt else Raise AssertionError.

(** [try: r except (e1, e2, ...): h], the handled exceptions given by
    [handled]; any other exception goes on to the caller. *)
Definition try_except {S A} (r : outcome S A) (handled : exn → bool) (h : outcome S A)
    : outcome S A :=
  match r with
  | Ok a => Ok a
  | Raised e s => if handled e then h else Raised e s
  end.

(** [for x in xs: s = body(s, x)]: the loop stops at the first exception. *)
Fixpoint for_each {A S T} (xs : list A) (body : S → A → outcome T S) (s : S) : outcome T S :=
  match xs with
  | [] => Ok s
  | x :: xs' => s' ← body s x; for_each xs' body s'
  end.

(** [enumerate(xs, i)]. *)
Fixpoint enumerate {A} (i : nat) (xs : list A) : list (nat * A) :=
  match xs with
  | [] => []
  | x :: xs' => (i, x) :: enumerate (S i) xs'
  end.

(** ** Python strings *)

Module Py.

(** [s.split(sep)] for a separator of one character: the pieces between
    the occurrences of [sep]; never the empty list. *)
Fixpoint split (sep : ascii) (s : string) : list string :=
  match s with
  | "" => [""]
  | String c s' =>
      if Ascii.eqb c sep then "" :: split sep s'
      else match split sep s' with
           | [] => [String c ""]
           | w :: ws => String c w :: ws
           end
  end.

(** [s.startswith(p)]. *)
Definition startswith (p s : string) : bool := String.prefix p s.

(** [s.replace(old, new)] for a non-empty [old]: scanning from the left,
    each occurrence of [old] is replaced and the scan resumes after it.
    [skip] counts the characters of a replaced occurrence still to pass. *)
Fixpoint replace_from (old new : string) (skip : nat) (s : string) : string :=
  match s with
  | "" => ""
  | String c s' =>
      match skip with
      | S k => replace_from old new k s'
      | O =>
          if String.prefix old s
          then new +:+ replace_from old new (Nat.pred (String.length old)) s'
          else String c (replace_from old new O s')
      end
  end.
Definition replace (old new s : string) : string := replace_from old new O s.

(** [seq[-1]]. *)
Definition last_item {A} (l : list A) : option A := last l.

(** [str(n)] for an [int]. *)
Definition str (n : Z) : string := NilZero.string_of_int (Z.to_int n).

(** The characters [str.split()] treats as blanks. *)
Definition is_space (c : ascii) : bool :=
  let n := nat_of_ascii c in
  ((9 <=? n)%nat && (n <=? 13)%nat) || ((28 <=? n)%nat && (n <=? 32)%nat).

(** The characters [int] skips around the literal of an ASCII [str]: the
    tabulators, the line ends and the space. The separators 28 to 31 are
    no blanks there. *)
Definition is_int_space (c : ascii) : bool :=
  let n := nat_of_ascii c in
  ((9 <=? n)%nat && (n <=? 13)%nat) || (n =? 32)%nat.

Definition digit_val (c : ascii) : option Z :=
  let n := nat_of_ascii c in
  if ((48 <=? n)%nat && (n <=? 57)%nat) then Some (Z.of_nat (n - 48)) else None.

(** The literal without the blanks before it, and without those around
    it. *)
Fixpoint lstrip (cs : list ascii) : list ascii :=
  match cs with
  | c :: cs' => if is_int_space c then lstrip cs' else cs
  | [] => []
  end.
Definition strip (cs : list ascii) : list ascii :=
  reverse (lstrip (reverse (lstrip cs))).

(** The digits of a decimal literal; single underscores may separate
    digits. [prev] tells whether the previous character was a digit. *)
Fixpoint int_digits (acc : Z) (prev : bool) (cs : list ascii) : option Z :=
  match cs with
  | [] => if prev then Some acc else None
  | c :: cs' =>
      if Ascii.eqb c "_"
      then (if prev then int_digits acc false cs' else None)
      else match digit_val c with
           | Some d => int_digits (10 * acc + d) true cs'
           | None => None
           end
  end.

(** [int(s)] for a [str], base 10: the blanks of [is_int_space] around, an
    optional sign, then the digits. [None] stands for [ValueError]. *)
Definition int (s : string) : option Z :=
  match strip (list_ascii_of_string s) with
  | c :: cs =>
      if Ascii.eqb c "-" then Z.opp <$> int_digits 0 false cs
      else if Ascii.eqb c "+" then int_digits 0 false cs
      else int_digits 0 false (c :: cs)
  | [] => None
  end.

End Py.

(** ** Python values, dictionaries and JSON documents *)

(** The keys the program uses in a [dict]: an [int] or a [str]. An [int]
    never equals a [str], so [KInt 7] and [KStr "7"] are different keys. *)
Inductive pykey : Set :=
| KInt (n : Z)
| KStr (s : string).

#[global] Instance pykey_eq_dec : EqDecision pykey.
Proof. solve_decision. Defined.

Section dict.
Context {K V : Type} `{EqDecision K}.

(** [d.get(k)]: [None] when [k] is no key of [d]. *)
Fixpoint dict_get (k : K) (d : list (K * V)) : option V :=
  match d with
  | [] => None
  | (k', v) :: d' => if decide (k = k') then Some v else dict_get k d'
  end.

(** [d[k] = v]: the value of an existing key is replaced where the key
    stands, a new key is added at the end. *)
Fixpoint dict_set (k : K) (v : V) (d : list (K * V)) : list (K * V) :=
  match d with
  | [] => [(k, v)]
  | (k', v') :: d' =>
      if decide (k = k') then (k', v) :: d' else (k', v') :: dict_set k v d'
  end.

(** [dict(pairs)]: the pairs are inserted from left to right. *)
Definition dict_of_pairs (ps : list (K * V)) : list (K * V) :=
  foldl (λ d kv, dict_set kv.1 kv.2 d) [] ps.

Definition dict_keys (d : list (K * V)) : list K := d.*1.
End dict.

Inductive pyval : Type :=
| PNone
| PBool (b : bool)
| PInt (n : Z)
| PFloat (f : float)
| PStr (s : string)
| PList (l : list pyval)
| PDict (d : list (pykey * pyval)).

Inductive json : Type :=
| JNull
| JBool (b : bool)
| JInt (n : Z)
| JFloat (f : float)
| JStr (s : string)
| JArr (l : list json)
| JObj (m : list (string * json)).

Module Json.

(** The member name [json.dump] writes for a key: an [int] key is written
    as its decimal text. *)
Definition key_text (k : pykey) : string :=
  match k with
  | KInt n => Py.str n
  | KStr s => s
  end.

(** [json.dump]: the document written for a value. The members of an
    object are written in the order of the dictionary; two keys with the
    same text give two members. *)
Fixpoint dump (v : pyval) : json :=
  match v with
  | PNone => JNull
  | PBool b => JBool b
  | PInt n => JInt n
  | PFloat f => JFloat f
  | PStr s => JStr s
  | PList l => JArr (map dump l)
  | PDict d => JObj (map (λ kv, (key_text kv.1, dump kv.2)) d)
  end.

(** [json.load]: the value read from a document. An object becomes the
    [dict] of its members, every key a [str]; of two members with one name
    the later value is kept. *)
Fixpoint load (j : json) : pyval :=
  match j with
  | JNull => PNone
  | JBool b => PBool b
  | JInt n => PInt n
  | JFloat f => PFloat f
  | JStr s => PStr s
  | JArr l => PList (map load l)
  | JObj m => PDict (foldl (λ d kv, dict_set (KStr kv.1) (load kv.2) d) [] m)
  end.

End Json.

(** [v[k]] for a [str] [k]. *)
Definition getitem (v : pyval) (k : string) : result pyval :=
  match v with
  | PDict d => dict_get (KStr k) d ?! KeyError
  | _ => Raise TypeError
  end.

(** [v[k] = x]; the program only assigns into dictionaries. *)
Definition setitem (v : pyval) (k : pykey) (x : pyval) : result pyval :=
  match v with
  | PDict d => Ok (PDict (dict_set k x d))
  | _ => Raise TypeError
  end.

(** [len(v)]. *)
Definition len (v : pyval) : result Z :=
  match v with
  | PStr s => Ok (Z.of_nat (String.length s))
  | PList l => Ok (Z.of_nat (length l))
  | PDict d => Ok (Z.of_nat (length d))
  | _ => Raise TypeError
  end.

(** [v.keys()]. *)
Definition keys (v : pyval) : result (list pykey) :=
  match v with
  | PDict d => Ok (dict_keys d)
  | _ => Raise AttributeError
  end.

(** ** The local file system

    A file is identified by what [json.load] makes of its bytes: it has no
    bytes at all, it is the text of a JSON document, or it is some other
    text. *)
Inductive file_content : Type :=
| FEmpty
| FJson (j : json)
| FGarbage.

(** A path is identified with its text: two texts stand for two files, and
    nothing is said of a file that is reached under two names. *)
Definition Path := string.

Definition getsize_is_zero (c : file_content) : bool :=
  match c with
  | FEmpty => true
  | _ => false
  end.

(** [json.load(f)] on an opened file. *)
Definition json_load_file (c : file_content) : result pyval :=
  match c with
  | FJson j => Ok (Json.load j)
  | _ => Raise JSONDecodeError
  end.

(** ** The remote entities (PyGithub objects)

    Only the attributes the program reads are kept. A [datetime] is
    identified with the [float] its [timestamp()] returns. *)

Record NamedUser := { login : string }.

Record IssueComment := {
  comment_user : NamedUser;
  comment_body : string;
}.

Record Issue := {
  issue_number : Z;
  issue_pull_request : option string;
  issue_user : NamedUser;
  issue_created_at : float;
  issue_closed_at : float;
  issue_closed_by : NamedUser;
  issue_labels : list string;
  issue_comments : list IssueComment;
}.

Record PullRequestReview := {
  review_id : Z;
  review_user : NamedUser;
  review_body : string;
  review_submitted_at : float;
  review_state : string;
}.

Record PullRequest := {
  pull_number : Z;
  pull_commits : Z;
  pull_user : NamedUser;
  pull_created_at : float;
  pull_closed_at : float;
  pull_merged_at : option float;
  pull_closed_by : NamedUser;
  pull_labels : list string;
  pull_issue_comments : list IssueComment;
  pull_reviews : list PullRequestReview;
  pull_review_requests : list NamedUser * list string;
}.

(** What [get_issues(state='closed')] and [get_pulls(state='closed')] list. *)
Record Repository := {
  closed_issues : list Issue;
  closed_pulls : list PullRequest;
}.

(** The entities that carry a [number]. *)
Class Numbered (E : Type) := number : E → Z.
#[global] Instance issue_numbered : Numbered Issue := issue_number.
#[global] Instance pull_numbered : Numbered PullRequest := pull_number.

(** ** create_bot_knowledge.py *)

Module create_bot_knowledge.

Definition ISSUE_KEYWORDS : gset string :=
  {[ "close"; "closes"; "closed"; "fix"; "fixes"; "fixed";
     "resolve"; "resolves"; "resolved" ]}.

Definition STANDALONE_LABELS : gset string := {[ "size" ]}.

(** The state the module acts on: the files, and a record of the calls of
    [save_knowledge] made so far, each with its path and its data. The record
    is not in the program; it lets a property speak of what was handed to
    [save_knowledge]. *)
Record world := {
  files : gmap Path file_content;
  saved : list (Path * pyval);
}.

(** Lines 72-80. [None] is the [None] the function returns when the loop
    ends. *)
Fixpoint get_labeled_size (labels : list string) : result (option string) :=
  match labels with
  | [] => Ok None
  | label :: labels' =>
      if Py.startswith "size" label
      then Some <$> (Py.split "/" label !! 1%nat ?! IndexError)
      else get_labeled_size labels'
  end.

(** Lines 83-85. *)
Definition get_non_standalone_labels (labels : list string) : list string :=
  filter (λ label, label ∉ STANDALONE_LABELS) labels.

(** The body of the [try] in [get_referenced_issues], lines 104-113. The
    [assert] is executed: the interpreter does not run with [-O]. *)
Definition referenced_issue (message : list string) (idx : nat) : result string :=
  referenced_issue_number ← message !! (idx + 1)%nat ?! IndexError;
  _ ← assert (Py.startswith "https" referenced_issue_number);
  Py.last_item (Py.split "/" referenced_issue_number) ?! IndexError.

(** The body of the loop over [enumerate(message)], lines 103-116. *)
Definition scan_word (message : list string)
    (issues_referenced : list string) (iw : nat * string) : result (list string) :=
  if decide (Py.replace ":" "" iw.2 ∈ ISSUE_KEYWORDS)
  then try_except
         (r ← referenced_issue message iw.1; Ok (issues_referenced ++ [r]))
         (λ e, match e with IndexError | AssertionError => true | _ => false end)
         (Ok issues_referenced)
  else Ok issues_referenced.

(** The body of the loop over the comments, lines 101-116. *)
Definition scan_comment (issues_referenced : list string) (comment : IssueComment)
    : result (list string) :=
  let message := Py.split " " (comment_body comment) in
  for_each (enumerate 0 message) (scan_word message) issues_referenced.

(** Lines 88-118. *)
Definition get_referenced_issues (pull_request : PullRequest) : result (list string) :=
  for_each (pull_issue_comments pull_request) scan_comment [].

(** [int(id)] for a key of the previous knowledge, line 136. *)
Definition key_int (id : pykey) : result Z :=
  match id with
  | KInt n => Ok n
  | KStr s => Py.int s ?! ValueError
  end.

(** Lines 121-147. *)
Definition get_only_new_entities {E} `{Numbered E}
    (old_data : pyval) (new_data : list E) : result (list E) :=
  ids ← keys old_data;
  old_knowledge_ids ← mapM key_int ids;
  let new_knowledge_ids := number <$> new_data in
  let only_new_ids : gset Z :=
    list_to_set new_knowledge_ids ∖ list_to_set old_knowledge_ids in
  Ok (filter (λ x, number x ∈ only_new_ids) new_data).

(** Lines 150-171. *)
Definition load_previous_knowledge (repo_path : Path) (w : world) : result pyval :=
  match files w !! repo_path with
  | None => Ok (PDict [])
  | Some c =>
      if getsize_is_zero c then Ok (PDict [])
      else
        data ← json_load_file c;
        results ← getitem data "results";
        _ ← len results;
        Ok results
  end.

(** Lines 174-189. The file is written before [len(data)] is taken for the
    log line: when that raises, the file is there. *)
Definition save_knowledge (file_path : Path) (data : pyval) (w : world)
    : outcome world world :=
  let results := PDict [(KStr "results", data)] in
  let w' := {| files := <[file_path := FJson (Json.dump results)]> (files w);
               saved := saved w ++ [(file_path, data)] |} in
  _ ← in_state w' (len data);
  Ok w'.

(** [len(body.split(' '))]. *)
Definition words (body : string) : Z := Z.of_nat (length (Py.split " " body)).

(** Lines 192-198. *)
Definition get_interactions (comments : list IssueComment) : result (list (string * Z)) :=
  let interactions := dict_of_pairs ((λ comment, (login (comment_user comment), 0)) <$> comments) in
  for_each comments
    (λ interactions comment,
       let k := login (comment_user comment) in
       n ← dict_get k interactions ?! KeyError;
       Ok (dict_set k (n + words (comment_body comment)) interactions))
    interactions.

(** The dictionary of interactions as a value of a record. *)
Definition interactions_value (d : list (string * Z)) : pyval :=
  PDict ((λ kv, (KStr kv.1, PInt kv.2)) <$> d).

(** Lines 201-228. The function updates [data] in place; here it returns
    the updated dictionary. *)
Definition store_issue (issue : Issue) (data : pyval) : result pyval :=
  match issue_pull_request issue with
  | Some _ => Ok data
  | None =>
      let created_at := issue_created_at issue in
      let closed_at := issue_closed_at issue in
      let time_to_close := (closed_at - created_at)%float in
      let labels := issue_labels issue in
      interactions ← get_interactions (issue_comments issue);
      setitem data (KInt (issue_number issue))
        (PDict [
           (KStr "created_by", PStr (login (issue_user issue)));
           (KStr "created_at", PFloat created_at);
           (KStr "closed_by", PStr (login (issue_closed_by issue)));
           (KStr "closed_at", PFloat closed_at);
           (KStr "labels", PList (PStr <$> get_non_standalone_labels labels));
           (KStr "time_to_close", PFloat time_to_close);
           (KStr "interactions", interactions_value interactions)
        ])
  end.

Section paths.
(** [Path.joinpath] is left to the file system. *)
Variable joinpath : Path → string → Path.

(** Lines 234-259. *)
Definition analyse_issues (project : Repository) (project_knowledge : Path)
    (w : world) : outcome world world :=
  let data_path := joinpath project_knowledge "./issues.json" in
  data ← in_state w (load_previous_knowledge data_path w);
  let current_issues :=
    filter (λ issue, issue_pull_request issue = None) (closed_issues project) in
  new_issues ← in_state w (get_only_new_entities data current_issues);
  if decide (length new_issues = 0%nat) then Ok w
  else
    data ← in_state w (for_each new_issues (λ data issue, store_issue issue data) data);
    save_knowledge data_path data w.
End paths.

(** Lines 262-280. *)
Definition extract_pullrequest_review_requests (pullrequest : PullRequest) : list string :=
  let requested_users := (pull_review_requests pullrequest).1 in
  foldl (λ extracted user, extracted ++ [login user]) [] requested_users.

(** Lines 283-307. *)
Definition extract_pullrequest_reviews (pullrequest : PullRequest) : list (pykey * pyval) :=
  let reviews := pull_reviews pullrequest in
  foldl (λ results review,
           dict_set (KInt (review_id review))
             (PDict [
                (KStr "author", PStr (login (review_user review)));
                (KStr "words_count", PInt (words (review_body review)));
                (KStr "submitted_at", PFloat (review_submitted_at review));
                (KStr "state", PStr (review_state review))
             ]) results)
        [] reviews.

(** A value that may be [None]. *)
Definition option_value {A} (f : A → pyval) (o : option A) : pyval :=
  match o with
  | Some a => f a
  | None => PNone
  end.

(** Lines 310-353. The entries of the record are evaluated in the order
    they are written. *)
Definition store_pullrequest (pull : PullRequest) (results : pyval) : result pyval :=
  let commits := pull_commits pull in
  let created_at := pull_created_at pull in
  let closed_at := pull_closed_at pull in
  let merged_at := pull_merged_at pull in
  let labels := pull_labels pull in
  size ← get_labeled_size labels;
  referenced_issues ← get_referenced_issues pull;
  interactions ← get_interactions (pull_issue_comments pull);
  setitem results (KStr (Py.str (pull_number pull)))
    (PDict [
       (KStr "size", option_value PStr size);
       (KStr "labels", PList (PStr <$> get_non_standalone_labels labels));
       (KStr "created_by", PStr (login (pull_user pull)));
       (KStr "created_at", PFloat created_at);
       (KStr "closed_at", PFloat closed_at);
       (KStr "closed_by", PStr (login (pull_closed_by pull)));
       (KStr "time_to_close", PFloat (closed_at - created_at)%float);
       (KStr "merged_at", option_value PFloat merged_at);
       (KStr "commits_number", PInt commits);
       (KStr "referenced_issues", PList (PStr <$> referenced_issues));
       (KStr "interactions", interactions_value interactions);
       (KStr "reviews", PDict (extract_pullrequest_reviews pull));
       (KStr "requested_reviewers", PList (PStr <$> extract_pullrequest_review_requests pull))
    ]).

Section paths.
Variable joinpath : Path → string → Path.

(** Lines 356-382. *)
Definition analyse_pullrequests (project : Repository) (project_knowledge : Path)
    (w : world) : outcome world world :=
  let pulls_data_path := joinpath project_knowledge "./pull_requests.json" in
  prev_pulls ← in_state w (load_previous_knowledge pulls_data_path w);
  let current_pulls := closed_pulls project in
  new_pulls ← in_state w (get_only_new_entities prev_pulls current_pulls);
  if decide (length new_pulls = 0%nat) then Ok w
  else
    prev_pulls ← in_state w
      (for_each new_pulls (λ results pull, store_pullrequest pull results) prev_pulls);
    save_knowledge pulls_data_path prev_pulls w.
End paths.

(** The repository object [connect_to_source] returns: its full name and
    what it lists. *)
Record GithubRepository := {
  full_name : string;
  listing : Repository;
}.

(** The state [analyse_projects] acts on: the state of the analyses and the
    directories that exist. The [open] of [save_knowledge] is taken to find
    its directory. *)
Record disk := {
  knowledge : world;
  directories : gset Path;
}.

Section orchestrator.
(** [Path.cwd], [Path.joinpath], the directories above a path and the
    repositories of the service are left to the environment. *)
Variable cwd : Path.
Variable joinpath : Path → string → Path.
Variable ancestors : Path → list Path.
Variable get_repo : string → GithubRepository.

(** Lines 49-61. *)
Definition connect_to_source (project : string * string) : GithubRepository :=
  let repo_name := project.2 +:+ "/" +:+ project.1 in
  get_repo repo_name.

(** [knowledge_dir.exists()]: there is a directory or a file. *)
Definition path_exists (p : Path) (s : disk) : bool :=
  bool_decide (p ∈ directories s) || bool_decide (is_Some (files (knowledge s) !! p)).

(** Lines 64-69. [os.makedirs] creates the directory and the missing ones
    above it. *)
Definition check_directory (knowledge_dir : Path) (s : disk) : disk :=
  if negb (path_exists knowledge_dir s) then
    {| knowledge := knowledge s;
       directories :=
         {[ knowledge_dir ]} ∪ list_to_set (ancestors knowledge_dir) ∪ directories s |}
  else s.

(** The body of the loop of [analyse_projects], lines 393-399. *)
Definition analyse_project (path : Path) (s : disk) (project : string * string)
    : outcome disk disk :=
  let github_repo := connect_to_source project in
  let project_path := joinpath path ("./" +:+ full_name github_repo) in
  let s := check_directory project_path s in
  let on_disk w := {| knowledge := w; directories := directories s |} in
  w ← raised_state on_disk
        (analyse_issues joinpath (listing github_repo) project_path (knowledge s));
  w ← raised_state on_disk
        (analyse_pullrequests joinpath (listing github_repo) project_path w);
  Ok (on_disk w).

(** Lines 385-399. *)
Definition analyse_projects (projects : list (string * string)) (s : disk)
    : outcome disk disk :=
  let path := joinpath cwd "./Bot_Knowledge" in
  for_each projects (analyse_project path) s.
End orchestrator.

End create_bot_knowledge.

(** ** srcopsmetrics/storage.py *)

Module storage.

(** The state the class acts on: the local files and the documents of the
    object store. *)
Record world := {
  files : gmap Path file_content;
  ceph : gmap string json;
}.

(** Modelled from the spec: the object store client [CephStore] of
    [thoth.storages] is not part of the repository. [store_document]
    serializes the document under the key, replacing what was there. *)
Definition store_document (document : pyval) (key : string) (w : world) : world :=
  {| files := files w; ceph := <[key := Json.dump document]> (ceph w) |}.

(** Modelled from the spec: [retrieve_document] deserializes the document
    of the key and raises the store's not-found condition when the key is
    absent. *)
Definition retrieve_document (key : string) (w : world) : result pyval :=
  Json.load <$> (ceph w !! key ?! NotFoundError).

Record KnowledgeStorage := { is_local : bool }.

Definition _FILENAME_ENTITY : list (string * string) :=
  [("Issue", "issues"); ("PullRequest", "pull_requests")].

Section paths.
(** [Path.cwd], [Path.joinpath] and [os.path.relpath] are left to the
    file system. *)
Variable cwd : Path.
Variable joinpath : Path → string → Path.
Variable relpath : Path → string.

(** [os.path.relpath(file_path).replace("./", "")], lines 71 and 141. *)
Definition ceph_filename (file_path : Path) : string :=
  Py.replace "./" "" (relpath file_path).

(** Lines 55-79. [len(data)] is taken for the log line before anything is
    written. [get_ceph_store] connects and always succeeds here. *)
Definition save_knowledge (self : KnowledgeStorage) (file_path : Path) (data : pyval)
    (w : world) : outcome world world :=
  let results := PDict [(KStr "results", data)] in
  _ ← in_state w (len data);
  if negb (is_local self) then
    Ok (store_document results (ceph_filename file_path) w)
  else
    Ok {| files := <[file_path := FJson (Json.dump results)]> (files w);
          ceph := ceph w |}.

(** Lines 126-136. [None] is returned as [PNone]. *)
Definition load_locally (file_path : Path) (w : world) : result pyval :=
  match files w !! file_path with
  | None => Ok PNone
  | Some c =>
      if getsize_is_zero c then Ok PNone
      else
        data ← json_load_file c;
        getitem data "results"
  end.

(** Lines 138-145. After the handler the function ends, so [None] is
    returned. *)
Definition load_remotely (self : KnowledgeStorage) (file_path : Path) (w : world)
    : result pyval :=
  try_except
    (document ← retrieve_document (ceph_filename file_path) w;
     getitem document "results")
    (λ e, match e with NotFoundError => true | _ => false end)
    (Ok PNone).

(** Lines 93-124. *)
Definition load_previous_knowledge (self : KnowledgeStorage) (project_name : string)
    (file_path : option Path) (knowledge_type : string) (w : world) : result pyval :=
  filename ← dict_get knowledge_type _FILENAME_ENTITY ?! KeyError;
  let file_path :=
    match file_path with
    | None =>
        let pwd := joinpath cwd "./srcopsmetrics/bot_knowledge" in
        let project_path := joinpath pwd ("./" +:+ project_name) in
        joinpath project_path ("./" +:+ filename +:+ ".json")
    | Some p => p
    end in
  results ← (if negb (is_local self) then load_remotely self file_path w
             else load_locally file_path w);
  match results with
  | PNone => Ok (PDict [])
  | _ => _ ← len results; Ok results
  end.
End paths.

End storage.

(** ** Notions the properties are stated with *)

Definition is_str_key (k : pykey) : bool :=
  match k with
  | KStr _ => true
  | KInt _ => false
  end.

(** A value JSON represents as it is: every key of every dictionary in it is
    a [str], no dictionary has a key twice, and every [float] is finite. *)
Fixpoint json_compatible (v : pyval) : bool :=
  match v with
  | PFloat f => is_finite f
  | PList l => forallb json_compatible l
  | PDict d =>
      bool_decide (NoDup (dict_keys d))
      && forallb (λ kv, is_str_key kv.1 && json_compatible kv.2) d
  | _ => true
  end.

(** Every key of every dictionary in the value is a [str]. *)
Fixpoint str_keyed (v : pyval) : bool :=
  match v with
  | PList l => forallb str_keyed l
  | PDict d => forallb (λ kv, is_str_key kv.1 && str_keyed kv.2) d
  | _ => true
  end.

(** [d1] is contained in [d2]: every key of [d1] has in [d2] the value it
    has in [d1]. *)
Definition dict_included (d1 d2 : pyval) : Prop :=
  match d1, d2 with
  | PDict a, PDict b => ∀ k v, dict_get k a = Some v → dict_get k b = Some v
  | _, _ => False
  end.

(** Whether the character [c] occurs in [s], and how often. *)
Fixpoint has_char (c : ascii) (s : string) : bool :=
  match s with
  | "" => false
  | String c' s' => Ascii.eqb c' c || has_char c s'
  end.

Fixpoint count_char (c : ascii) (s : string) : nat :=
  match s with
  | "" => O
  | String c' s' => (if Ascii.eqb c' c then 1 else 0) + count_char c s'
  end.

(** [s] without its occurrences of [c]. *)
Fixpoint remove_char (c : ascii) (s : string) : string :=
  match s with
  | "" => ""
  | String c' s' => if Ascii.eqb c' c then remove_char c s' else String c' (remove_char c s')
  end.

(** The part of [s] after its last ["/"]; [s] itself when it has none. *)
Fixpoint last_segment (s : string) : string :=
  match s with
  | "" => ""
  | String c s' =>
      if has_char "/" s' then last_segment s'
      else if Ascii.eqb c "/" then s' else s
  end.

(** The labels before the first one that starts with ["size"], and that
    label: [labels = before ++ label :: after]. *)
Definition first_size_label (labels before : list string) (label : string) : Prop :=
  (∃ after, labels = before ++ label :: after)
  ∧ Forall (λ l, Py.startswith "size" l = false) before
  ∧ Py.startswith "size" label = true.

(** [seg] is the segment of [label] after its first ["/"]: it starts there
    and ends before the next ["/"], or with the label. *)
Definition segment_after_first_slash (label seg : string) : Prop :=
  ∃ pre rest,
    label = pre +:+ String "/" (seg +:+ rest)
    ∧ has_char "/" pre = false
    ∧ has_char "/" seg = false
    ∧ (rest = "" ∨ ∃ r, rest = String "/" r).

(** [w] without its trailing colons. *)
Fixpoint rstrip_colon (w : string) : string :=
  match w with
  | "" => ""
  | String c w' =>
      let r := rstrip_colon w' in
      if Ascii.eqb c ":" && String.eqb r "" then "" else String c r
  end.

(** The references read off a list of tokens: for each token that
    [is_keyword] accepts and whose next token starts with "https", the last
    segment of that next token, in the order of the tokens. *)
Fixpoint references (is_keyword : string → bool) (tokens : list string) : list string :=
  match tokens with
  | [] => []
  | t :: tokens' =>
      match tokens' with
      | [] => []
      | t' :: _ =>
          if is_keyword t && Py.startswith "https" t'
          then last_segment t' :: references is_keyword tokens'
          else references is_keyword tokens'
      end
  end.

(** The references of a sequence of comment bodies, each cut at its single
    spaces, one comment after the other. *)
Definition references_of_comments (is_keyword : string → bool) (bodies : list string)
    : list string :=
  concat ((λ body, references is_keyword (Py.split " " body)) <$> bodies).

(** A closing keyword once every colon of the token is removed. *)
Definition keyword_without_colons (w : string) : bool :=
  bool_decide (remove_char ":" w ∈ create_bot_knowledge.ISSUE_KEYWORDS).

(** A closing keyword once the trailing colons of the token are stripped. *)
Definition keyword_without_trailing_colon (w : string) : bool :=
  bool_decide (rstrip_colon w ∈ create_bot_knowledge.ISSUE_KEYWORDS).

(** The number of words of [body] when it is cut at blanks, as
    [len(body.split())] counts them; [in_word] tells whether the previous
    character belongs to a word. *)
Fixpoint whitespace_words_from (in_word : bool) (s : string) : nat :=
  match s with
  | "" => O
  | String c s' =>
      if Py.is_space c then whitespace_words_from false s'
      else ((if in_word then 0 else 1) + whitespace_words_from true s')%nat
  end.
Definition whitespace_words (body : string) : Z :=
  Z.of_nat (whitespace_words_from false body).

(** The number of pieces the single spaces of [body] cut it into. *)
Definition pieces (body : string) : Z := 1 + Z.of_nat (count_char " " body).

Definition author (comment : IssueComment) : string := login (comment_user comment).

(** The sum of [count] over the bodies of the comments of [a]. *)
Definition total_by (count : string → Z) (a : string) (comments : list IssueComment) : Z :=
  foldr (λ comment n, count (comment_body comment) + n) 0
    (filter (λ comment, author comment = a) comments).

(** The path [storage.load_previous_knowledge] reads: the given one, or the
    one derived from the project name and the file name of the entity. *)
Definition knowledge_path (cwd : Path) (joinpath : Path → string → Path)
    (project_name : string) (file_path : option Path) (filename : string) : Path :=
  match file_path with
  | Some p => p
  | None =>
      joinpath (joinpath (joinpath cwd "./srcopsmetrics/bot_knowledge") ("./" +:+ project_name))
        ("./" +:+ filename +:+ ".json")
  end.

(** ** Sample entities *)

Definition sample_comment (author body : string) : IssueComment :=
  {| comment_user := {| login := author |}; comment_body := body |}.

Definition sample_pull (n : Z) (labels : list string) (comments : list IssueComment)
    : PullRequest :=
  {| pull_number := n;
     pull_commits := 1;
     pull_user := {| login := "alice" |};
     pull_created_at := 1000%float;
     pull_closed_at := 4600%float;
     pull_merged_at := Some 4600%float;
     pull_closed_by := {| login := "bob" |};
     pull_labels := labels;
     pull_issue_comments := comments;
     pull_reviews := [];
     pull_review_requests := ([], []) |}.

Definition sample_issue (n : Z) (pr : option string) (comments : list IssueComment) : Issue :=
  {| issue_number := n;
     issue_pull_request := pr;
     issue_user := {| login := "alice" |};
     issue_created_at := 1000%float;
     issue_closed_at := 4600%float;
     issue_closed_by := {| login := "bob" |};
     issue_labels := ["bug"];
     issue_comments := comments |}.

Definition sample_joinpath (p : Path) (name : string) : Path :=
  p +:+ "/" +:+ Py.replace "./" "" name.

(** A project with the closed issues 1 and 2 and the closed pull requests
    3 and 4. *)
Definition sample_project : Repository :=
  {| closed_issues :=
       [sample_issue 1 None [sample_comment "carol" "hi there"];
        sample_issue 2 None []];
     closed_pulls :=
       [sample_pull 3 ["bug"; "size/L"] [sample_comment "carol" "fixes https://x/y/1"];
        sample_pull 4 [] []] |}.

(** Files that know the issue 1 and the pull request 3. *)
Definition sample_files : gmap Path file_content :=
  {[ "kb/issues.json" := FJson (JObj [("results", JObj [("1", JObj [("labels", JArr [])])])]);
     "kb/pull_requests.json" := FJson (JObj [("results", JObj [("3", JObj [("size", JNull)])])]) ]}.

(** Files that know every closed entity of the project. *)
Definition sample_files_all : gmap Path file_content :=
  {[ "kb/issues.json" := FJson (JObj [("results", JObj [("1", JObj []); ("2", JObj [])])]);
     "kb/pull_requests.json" := FJson (JObj [("results", JObj [("3", JObj []); ("4", JObj [])])]) ]}.

(** A Snapshot with one pull request record. *)
Definition sample_snapshot : list (pykey * pyval) :=
  [(KStr "7",
    PDict [(KStr "size", PStr "L");
           (KStr "labels", PList [PStr "bug"]);
           (KStr "created_at", PFloat 1000%float);
           (KStr "merged_at", PNone);
           (KStr "commits_number", PInt 3);
           (KStr "interactions", PDict [(KStr "carol", PInt 2)])])].

(** ** Notions of the further properties *)

(** The value of the last member named [name] of a JSON object. *)
Definition last_member (name : string) (m : list (string * json)) : option json :=
  snd <$> last (filter (λ kv, kv.1 = name) m).

(** The JSON documents whose value has a length in Python: objects, arrays
    and strings. *)
Definition json_sized (j : json) : bool :=
  match j with
  | JObj _ | JArr _ | JStr _ => true
  | _ => false
  end.

(** The file at [path] holds a Snapshot in which no entity of [listing] is
    new. *)
Definition knows {E} `{Numbered E} (path : Path) (listing : list E)
    (w : create_bot_knowledge.world) : Prop :=
  ∃ data, create_bot_knowledge.load_previous_knowledge path w = Ok data
          ∧ create_bot_knowledge.get_only_new_entities data listing = Ok [].

(** The record [extract_pullrequest_reviews] keeps of a review. *)
Definition review_record (review : PullRequestReview) : pyval :=
  PDict [(KStr "author", PStr (login (review_user review)));
         (KStr "words_count", PInt (pieces (review_body review)));
         (KStr "submitted_at", PFloat (review_submitted_at review));
         (KStr "state", PStr (review_state review))].

(** The names of the entries of an issue record, in their order. *)
Definition issue_record_keys : list pykey :=
  KStr <$> ["created_by"; "created_at"; "closed_by"; "closed_at"; "labels";
            "time_to_close"; "interactions"].

(** Files whose issue Snapshot has a key that [int] rejects: the digit 7
    after the separator 28. *)
Definition sample_files_bad_key : gmap Path file_content :=
  {[ "kb/issues.json" :=
       FJson (JObj [("results", JObj [("1", JObj []); (String "028" "7", JObj [])])]) ]}.

Definition sample_review (id : Z) (body : string) : PullRequestReview :=
  {| review_id := id;
     review_user := {| login := "dave" |};
     review_body := body;
     review_submitted_at := 2000%float;
     review_state := "APPROVED" |}.

(** The pull request 5 with two reviews under one identifier and one
    requested reviewer. *)
Definition sample_reviewed_pull : PullRequest :=
  {| pull_number := 5;
     pull_commits := 2;
     pull_user := {| login := "alice" |};
     pull_created_at := 1000%float;
     pull_closed_at := 4600%float;
     pull_merged_at := None;
     pull_closed_by := {| login := "bob" |};
     pull_labels := ["size/XS"];
     pull_issue_comments := [];
     pull_reviews := [sample_review 11 "looks good"; sample_review 12 "ok";
                      sample_review 11 "one more thing"];
     pull_review_requests := ([{| login := "erin" |}], ["core"]) |}.

(** The file holds a JSON object whose last member "results" is [null]. *)
Definition results_null (c : file_content) : bool :=
  match c with
  | FJson (JObj m) =>
      match last_member "results" m with
      | Some JNull => true
      | _ => false
      end
  | _ => false
  end.

(** A relative path as [os.path.relpath] gives it for the sample paths:
    the path itself. *)
Definition sample_relpath (file_path : Path) : string := file_path.

(** The service of the samples: every name is the sample project. *)
Definition sample_get_repo (repo_name : string) : create_bot_knowledge.GithubRepository :=
  {| create_bot_knowledge.full_name := repo_name;
     create_bot_knowledge.listing := sample_project |}.

(** The directories above a path, for the samples: none is missing. *)
Definition sample_ancestors (p : Path) : list Path := [].

(** What a run leaves for a project: its directory, and files that know
    its issues and its pull requests. *)
Definition settled (joinpath : Path → string → Path)
    (get_repo : string → create_bot_knowledge.GithubRepository)
    (path : Path) (project : string * string) (s : create_bot_knowledge.disk) : Prop :=
  let github_repo := create_bot_knowledge.connect_to_source get_repo project in
  let project_path :=
    joinpath path ("./" +:+ create_bot_knowledge.full_name github_repo) in
  create_bot_knowledge.path_exists project_path s = true
  ∧ knows (joinpath project_path "./issues.json")
      (filter (λ issue, issue_pull_request issue = None)
         (closed_issues (create_bot_knowledge.listing github_repo)))
      (create_bot_knowledge.knowledge s)
  ∧ knows (joinpath project_path "./pull_requests.json")
      (closed_pulls (create_bot_knowledge.listing github_repo))
      (create_bot_knowledge.knowledge s).

(** ** Tactics *)

(** Evaluates the value of a digit character in the goal. *)
Ltac digit_val_compute :=
  match goal with
  | |- context [Py.digit_val ?c] =>
      let v := eval vm_compute in (Py.digit_val c) in
      change (Py.digit_val c) with v; cbv iota beta
  end.

(** * Properties *)

(** ** Strings *)

Section split_facts.
Variable sep : ascii.

Lemma split_not_nil s : Py.split sep s ≠ [].
Proof.
  destruct s as [|c s]; simpl; [done|].
  destruct (Ascii.eqb c sep); [done|]. by destruct (Py.split sep s).
Qed.

Lemma split_no_sep s : has_char sep s = false → Py.split sep s = [s].
Proof.
  induction s as [|c s IH]; simpl; [done|].
  intros [Hc Hs]%orb_false_iff. rewrite Hc, (IH Hs). done.
Qed.

Lemma split_app pre s :
  has_char sep pre = false →
  Py.split sep (pre +:+ String sep s) = pre :: Py.split sep s.
Proof.
  induction pre as [|c pre IH]; simpl.
  - intros _. by rewrite Ascii.eqb_refl.
  - intros [Hc Hs]%orb_false_iff. rewrite Hc, (IH Hs). done.
Qed.

Lemma split_length s : length (Py.split sep s) = S (count_char sep s).
Proof.
  induction s as [|c s IH]; simpl; [done|].
  destruct (Ascii.eqb c sep); simpl; [by rewrite IH|].
  destruct (Py.split sep s) eqn:E; simpl in *; [done|]. done.
Qed.
End split_facts.

Lemma string_app_nil_r s : s +:+ "" = s.
Proof.
  induction s as [|c s IH]; [done|].
  change (String c s +:+ "") with (String c (s +:+ "")). by rewrite IH.
Qed.

Lemma has_char_count c s : has_char c s = true → count_char c s ≠ O.
Proof.
  induction s as [|c' s IH]; simpl; [done|].
  destruct (Ascii.eqb c' c); simpl; [lia|auto].
Qed.

Lemma split_second sep label seg pre rest :
  label = pre +:+ String sep (seg +:+ rest) →
  has_char sep pre = false →
  has_char sep seg = false →
  rest = "" ∨ (∃ r, rest = String sep r) →
  Py.split sep label !! 1%nat = Some seg.
Proof.
  intros -> Hpre Hseg Hrest. rewrite split_app by done.
  destruct Hrest as [->|[r ->]].
  - by rewrite string_app_nil_r, split_no_sep.
  - by rewrite split_app.
Qed.

Lemma split_last_segment s : Py.last_item (Py.split "/" s) = Some (last_segment s).
Proof.
  unfold Py.last_item. induction s as [|c s IH]; [done|].
  cbn [Py.split last_segment].
  destruct (has_char "/" s) eqn:Hs.
  - pose proof (split_length "/" s) as HL.
    pose proof (has_char_count _ _ Hs) as Hc.
    rewrite <-IH.
    destruct (Ascii.eqb c "/"); destruct (Py.split "/" s) as [|w [|w' ws]];
      simpl in *; done || lia.
  - rewrite (split_no_sep _ _ Hs). by destruct (Ascii.eqb c "/").
Qed.

Example split_spaces :
  Py.split " " "this closes: https://x/y/42" = ["this"; "closes:"; "https://x/y/42"]
  ∧ Py.split " " "" = [""]
  ∧ Py.split " " "hi  there" = ["hi"; ""; "there"].
Proof. by repeat split. Qed.

Example split_slashes : Py.split "/" "a//b/" = ["a"; ""; "b"; ""].
Proof. reflexivity. Qed.

Example replace_all :
  Py.replace ":" "" "c:lose::" = "close" ∧ Py.replace "./" "" "./a/./b.c/" = "a/b.c/".
Proof. by split. Qed.

Example int_literals :
  Py.int " 0_07 " = Some 7 ∧ Py.int "-12" = Some (-12) ∧ Py.int "1__2" = None
  ∧ Py.int "" = None ∧ Py.int "+ 3" = None ∧ Py.int "12a" = None.
Proof. by repeat split. Qed.

Example dump_int_key :
  Json.dump (PDict [(KStr "1", PNone); (KInt 2, PInt 5)]) = JObj [("1", JNull); ("2", JInt 5)].
Proof. reflexivity. Qed.

Example load_repeated_member :
  Json.load (JObj [("1", JInt 1); ("2", JInt 2); ("1", JInt 3)])
  = PDict [(KStr "1", PInt 3); (KStr "2", PInt 2)].
Proof. reflexivity. Qed.

(** ** The blanks of [int] *)

Lemma lstrip_snoc cs c :
  Py.is_int_space c = false → ∃ cs', Py.lstrip (cs ++ [c]) = cs' ++ [c].
Proof.
  intros Hc. induction cs as [|c0 cs [cs' IH]]; cbn [app Py.lstrip].
  - rewrite Hc. by exists [].
  - destruct (Py.is_int_space c0); [by exists cs'|]. by exists (c0 :: cs).
Qed.

Lemma strip_first c cs :
  Py.is_int_space c = false → ∃ cs', Py.strip (c :: cs) = c :: cs'.
Proof.
  intros Hc. unfold Py.strip. cbn [Py.lstrip]. rewrite Hc, reverse_cons.
  destruct (lstrip_snoc (reverse cs) c Hc) as [cs' ->].
  exists (reverse cs'). by rewrite reverse_app.
Qed.

(** [int] skips none of the separators 28 to 31, which [str.split()] takes
    for blanks: it rejects a text that starts with one. *)
Lemma int_separator c s :
  (28 ≤ nat_of_ascii c ≤ 31)%nat → Py.is_space c = true ∧ Py.int (String c s) = None.
Proof.
  intros Hc. rewrite <-(ascii_nat_embedding c).
  assert (nat_of_ascii c = 28 ∨ nat_of_ascii c = 29 ∨ nat_of_ascii c = 30
          ∨ nat_of_ascii c = 31)%nat as [ -> | [ -> | [ -> | -> ] ] ] by lia;
    (split; [done|]); unfold Py.int; cbn [list_ascii_of_string];
    match goal with
    | |- context [Py.strip (?a :: ?l)] =>
        destruct (strip_first a l eq_refl) as [cs' ->]
    end; done.
Qed.

(** ** [int(str(n)) = n] *)

Section int_str.
Import Decimal.

Local Abbreviation uint_chars d := (list_ascii_of_string (NilEmpty.string_of_uint d)).

Lemma lstrip_no_space cs : Forall (λ c, Py.is_int_space c = false) cs → Py.lstrip cs = cs.
Proof. destruct 1 as [|c cs Hc _]; [done|]. simpl. by rewrite Hc. Qed.

Lemma strip_no_space cs : Forall (λ c, Py.is_int_space c = false) cs → Py.strip cs = cs.
Proof.
  intros Hcs. unfold Py.strip. rewrite (lstrip_no_space cs Hcs).
  rewrite lstrip_no_space; [apply reverse_involutive|].
  by apply Forall_reverse.
Qed.

Lemma uint_chars_no_space d : Forall (λ c, Py.is_int_space c = false) (uint_chars d).
Proof. induction d; simpl; constructor; done. Qed.

Lemma int_digits_uint_acc d a b :
  d ≠ Nil ∨ b = true →
  Py.int_digits (Z.pos a) b (uint_chars d) = Some (Z.pos (Pos.of_uint_acc d a)).
Proof.
  revert a b. induction d as [|d IH|d IH|d IH|d IH|d IH|d IH|d IH|d IH|d IH|d IH];
    intros a b Hd;
    [ destruct Hd as [ | -> ]; done
    | cbn [NilEmpty.string_of_uint list_ascii_of_string Py.int_digits Pos.of_uint_acc];
      cbn [Ascii.eqb Bool.eqb]; digit_val_compute;
      rewrite <-(IH _ true) by (by right); f_equal; lia .. ].
Qed.

Lemma int_digits_uint d b :
  d ≠ Nil ∨ b = true →
  Py.int_digits 0 b (uint_chars d) = Some (Z.of_N (Pos.of_uint d)).
Proof.
  revert b. induction d as [|d IH|d IH|d IH|d IH|d IH|d IH|d IH|d IH|d IH|d IH];
    intros b Hd;
    [ destruct Hd as [ | -> ]; done
    | cbn [NilEmpty.string_of_uint list_ascii_of_string Py.int_digits Pos.of_uint];
      cbn [Ascii.eqb Bool.eqb]; digit_val_compute; by apply IH; right
    | cbn [NilEmpty.string_of_uint list_ascii_of_string Py.int_digits Pos.of_uint];
      cbn [Ascii.eqb Bool.eqb]; digit_val_compute;
      cbn [Z.of_N]; rewrite <-(int_digits_uint_acc d _ true) by (by right);
      reflexivity .. ].
Qed.

Lemma int_uint_chars d :
  d ≠ Nil →
  match uint_chars d with
  | c :: cs =>
      if Ascii.eqb c "-" then Z.opp <$> Py.int_digits 0 false cs
      else if Ascii.eqb c "+" then Py.int_digits 0 false cs
      else Py.int_digits 0 false (c :: cs)
  | [] => None
  end = Some (Z.of_N (Pos.of_uint d)).
Proof.
  intros Hd. rewrite <-(int_digits_uint d false) by by left.
  destruct d; done.
Qed.

Lemma string_of_uint_nonnil d : d ≠ Nil → NilZero.string_of_uint d = NilEmpty.string_of_uint d.
Proof. by destruct d. Qed.

Lemma int_str n : Py.int (Py.str n) = Some n.
Proof.
  unfold Py.int, Py.str. destruct n as [|p|p]; [done| |].
  - cbn [Z.to_int NilZero.string_of_int].
    pose proof (Unsigned.to_uint_nonnil p) as Hp.
    rewrite string_of_uint_nonnil by done.
    rewrite strip_no_space by apply uint_chars_no_space.
    rewrite int_uint_chars by done. by rewrite Unsigned.of_to.
  - cbn [Z.to_int NilZero.string_of_int list_ascii_of_string].
    pose proof (Unsigned.to_uint_nonnil p) as Hp.
    rewrite string_of_uint_nonnil by done.
    rewrite strip_no_space by (constructor; [done|apply uint_chars_no_space]).
    cbn [Ascii.eqb Bool.eqb]. cbv iota.
    rewrite int_digits_uint by by left. by rewrite Unsigned.of_to.
Qed.
End int_str.

(** ** Labels *)

Import create_bot_knowledge.

Lemma get_labeled_size_skip before labels :
  Forall (λ l, Py.startswith "size" l = false) before →
  get_labeled_size (before ++ labels) = get_labeled_size labels.
Proof.
  induction 1 as [|l before Hl _ IH]; [done|].
  simpl. by rewrite Hl.
Qed.

Lemma get_labeled_size_at before label after :
  Forall (λ l, Py.startswith "size" l = false) before →
  Py.startswith "size" label = true →
  get_labeled_size (before ++ label :: after)
  = Some <$> (Py.split "/" label !! 1%nat ?! IndexError).
Proof.
  intros Hb Hl. rewrite get_labeled_size_skip by done.
  simpl. by rewrite Hl.
Qed.

Lemma get_non_standalone_labels_filter labels :
  get_non_standalone_labels labels = filter (λ label, label ≠ "size") labels.
Proof.
  unfold get_non_standalone_labels, STANDALONE_LABELS.
  induction labels as [|l labels IH]; [done|].
  rewrite !filter_cons, IH.
  destruct (decide (l ∉ _)) as [Hin|Hin], (decide (l ≠ "size")) as [Hne|Hne];
    try done; exfalso; set_solver.
Qed.

(** C10: [get_labeled_size] returns no size when no label starts with
    "size"; otherwise it looks only at the first label that starts with
    "size": it returns the segment after that label's first "/", and the index
    access fails with [IndexError] when that label has no "/" (so a result
    is returned only when it has one). *)
Theorem get_labeled_size_first_size_label (labels : list string) :
  (Forall (λ l, Py.startswith "size" l = false) labels →
   get_labeled_size labels = Ok None)
  ∧ (∀ before label, first_size_label labels before label →
       (∀ seg, segment_after_first_slash label seg →
               get_labeled_size labels = Ok (Some seg))
       ∧ (has_char "/" label = false → get_labeled_size labels = Raise IndexError)
       ∧ (∀ r, get_labeled_size labels = Ok r → has_char "/" label = true)).
Proof.
  split.
  - intros Hall. rewrite <-(app_nil_r labels).
    by rewrite get_labeled_size_skip.
  - intros before label ([after ->] & Hb & Hl).
    rewrite get_labeled_size_at by done.
    assert (has_char "/" label = false →
            Some <$> (Py.split "/" label !! 1%nat ?! IndexError)
            = (Raise IndexError : result (option string))) as Hnone.
    { intros Hno. by rewrite split_no_sep. }
    split; [|split].
    + intros seg (pre & rest & Heq & Hpre & Hseg & Hrest).
      by rewrite (split_second _ _ _ _ _ Heq Hpre Hseg Hrest).
    + done.
    + intros r Hr. destruct (has_char "/" label) eqn:E; [done|].
      rewrite Hnone in Hr by done. discriminate.
Qed.

Lemma get_labeled_size_first_size_label_witness :
  get_labeled_size ["bug"; "size/XL/extra"; "size"] = Ok (Some "XL")
  ∧ get_labeled_size ["bug"; "size"; "size/L"] = Raise IndexError.
Proof.
  split.
  - refine (proj1 (proj2 (get_labeled_size_first_size_label _) ["bug"] "size/XL/extra" _)
              "XL" _).
    + split; [by exists ["size"]|]. split; [by repeat constructor|reflexivity].
    + exists "size", "/extra". repeat split; try reflexivity. right. by exists "extra".
  - refine (proj1 (proj2 (proj2 (get_labeled_size_first_size_label _) ["bug"] "size" _)) _).
    + split; [by exists ["size/L"]|]. split; [by repeat constructor|reflexivity].
    + reflexivity.
Defined.

(** C2: on the labels ["bug"; "size/L"] the size is "L", yet the filtered
    label list still holds "size/L": [get_non_standalone_labels] drops only a
    label that is exactly "size", so a size-class label "size/<SIZE>" always
    stays in the generic list. The labels ["bug"] have no size. *)
Theorem size_label_stays_in_labels :
  get_labeled_size ["bug"; "size/L"] = Ok (Some "L")
  ∧ get_non_standalone_labels ["bug"; "size/L"] = ["bug"; "size/L"]
  ∧ get_labeled_size ["bug"] = Ok None
  ∧ (∀ labels label, label ∈ labels → has_char "/" label = true →
                     label ∈ get_non_standalone_labels labels).
Proof.
  repeat split; try reflexivity.
  intros labels label Hin Hslash. rewrite get_non_standalone_labels_filter.
  apply list_elem_of_filter. split; [|done]. by intros ->.
Qed.

(** ** The scanner of references *)

Lemma prefix_empty s : String.prefix "" s = true.
Proof. by destruct s. Qed.

Lemma replace_colon w : Py.replace ":" "" w = remove_char ":" w.
Proof.
  unfold Py.replace. induction w as [|c w IH]; [done|].
  cbn [Py.replace_from remove_char String.prefix String.length Nat.pred].
  destruct (ascii_dec ":" c) as [<-|Hne].
  - rewrite prefix_empty. change ("" +:+ ?x) with x. by rewrite IH.
  - rewrite IH. destruct (Ascii.eqb_spec c ":") as [->|_]; done.
Qed.

Lemma scan_word_step message acc idx t :
  scan_word message acc (idx, t)
  = Ok (acc ++ match message !! (idx + 1)%nat with
               | Some t' =>
                   if keyword_without_colons t && Py.startswith "https" t'
                   then [last_segment t'] else []
               | None => []
               end).
Proof.
  unfold scan_word, referenced_issue, keyword_without_colons. cbn [fst snd].
  rewrite replace_colon.
  destruct (decide (remove_char ":" t ∈ ISSUE_KEYWORDS)) as [Hk|Hk].
  - rewrite (bool_decide_eq_true_2 _ Hk). cbn [andb].
    destruct (message !! (idx + 1)%nat) as [t'|]; cbn; [|by rewrite app_nil_r].
    destruct (Py.startswith "https" t'); cbn; [|by rewrite app_nil_r].
    by rewrite split_last_segment.
  - rewrite (bool_decide_eq_false_2 _ Hk). cbn [andb].
    destruct (message !! (idx + 1)%nat); by rewrite app_nil_r.
Qed.

Lemma scan_words message pre suffix acc :
  message = pre ++ suffix →
  for_each (enumerate (length pre) suffix) (scan_word message) acc
  = Ok (acc ++ references keyword_without_colons suffix).
Proof.
  revert pre acc. induction suffix as [|t rest IH]; intros pre acc Hm.
  - simpl. by rewrite app_nil_r.
  - cbn [enumerate for_each]. rewrite scan_word_step. cbn [mbind result_bind in_state].
    assert (message = (pre ++ [t]) ++ rest) as Hm' by by rewrite <-app_assoc.
    specialize (IH (pre ++ [t])). rewrite length_app in IH. simpl in IH.
    rewrite Nat.add_1_r in IH. rewrite (IH _ Hm').
    assert (message !! (length pre + 1)%nat = rest !! 0%nat) as ->.
    { rewrite Hm'. rewrite lookup_app_r; rewrite length_app; simpl; [|lia].
      f_equal. lia. }
    rewrite <-app_assoc. do 2 f_equal.
    destruct rest as [|t' rest']; [done|]. cbn [lookup list_lookup references].
    by destruct (_ && _).
Qed.

Lemma scan_comment_step acc comment :
  scan_comment acc comment
  = Ok (acc ++ references keyword_without_colons (Py.split " " (comment_body comment))).
Proof. unfold scan_comment. by apply (scan_words _ []). Qed.

Lemma scan_comments comments acc :
  for_each comments scan_comment acc
  = Ok (acc ++ references_of_comments keyword_without_colons (comment_body <$> comments)).
Proof.
  revert acc. induction comments as [|c comments IH]; intros acc.
  - simpl. by rewrite app_nil_r.
  - cbn [for_each]. rewrite scan_comment_step. cbn [mbind result_bind in_state].
    rewrite IH. unfold references_of_comments. rewrite !fmap_cons. cbn [concat].
    by rewrite <-app_assoc.
Qed.

Lemma get_referenced_issues_references (pull : PullRequest) :
  get_referenced_issues pull
  = Ok (references_of_comments keyword_without_colons
          (comment_body <$> pull_issue_comments pull)).
Proof. unfold get_referenced_issues. by rewrite scan_comments. Qed.

(** C3 (as amended): for every sequence of comment bodies,
    [get_referenced_issues] returns, in order of occurrence and without
    deduplication, the final path segment of the token that follows each
    token which, with every colon in it removed (not only a trailing one),
    equals a closing keyword and whose next token is present and begins with
    "https"; a keyword whose next token is absent or does not begin with
    "https" contributes nothing and the scan goes on. The three sample
    comments yield ["42"], [] and ["7"; "9"]. *)
Theorem get_referenced_issues_colons_removed (pull : PullRequest) :
  get_referenced_issues pull
  = Ok (references_of_comments keyword_without_colons
          (comment_body <$> pull_issue_comments pull))
  ∧ get_referenced_issues
      (sample_pull 1 [] [sample_comment "a" "this closes: https://x/y/42"]) = Ok ["42"]
  ∧ get_referenced_issues
      (sample_pull 1 [] [sample_comment "a" "fix coming soon"]) = Ok []
  ∧ get_referenced_issues
      (sample_pull 1 [] [sample_comment "a" "fixes https://x/y/7 and closes https://x/y/9"])
    = Ok ["7"; "9"].
Proof. split; [apply get_referenced_issues_references|by vm_compute]. Qed.

(** C3 (counterexample): the token ":fixes" is no closing keyword once its
    trailing colons are stripped, so the claim gives no reference for the
    comment ":fixes https://x/y/7"; the code returns ["7"]. *)
Lemma get_referenced_issues_leading_colon :
  get_referenced_issues (sample_pull 1 [] [sample_comment "a" ":fixes https://x/y/7"])
  = Ok ["7"]
  ∧ references_of_comments keyword_without_trailing_colon [":fixes https://x/y/7"] = []
  ∧ get_referenced_issues (sample_pull 1 [] [sample_comment "a" ":fixes https://x/y/7"])
    ≠ Ok (references_of_comments keyword_without_trailing_colon [":fixes https://x/y/7"]).
Proof. by vm_compute. Qed.

(** ** Dictionaries *)

Section dict_facts.
Context {K V : Type} `{EqDecision K}.
Implicit Types (d : list (K * V)) (k : K) (v : V).

Lemma dict_get_set_eq k v d : dict_get k (dict_set k v d) = Some v.
Proof.
  induction d as [|[k' v'] d IH]; simpl.
  - by rewrite decide_True.
  - destruct (decide (k = k')) as [->|Hne]; simpl.
    + by rewrite decide_True.
    + by rewrite decide_False.
Qed.

Lemma dict_get_set_ne k k' v d :
  k ≠ k' → dict_get k' (dict_set k v d) = dict_get k' d.
Proof.
  intros Hne. induction d as [|[k0 v0] d IH]; simpl.
  - by rewrite decide_False.
  - destruct (decide (k = k0)) as [->|Hk]; simpl.
    + by rewrite !decide_False.
    + by rewrite IH.
Qed.

Lemma dict_get_set k k' v d :
  dict_get k' (dict_set k v d) = if decide (k = k') then Some v else dict_get k' d.
Proof.
  destruct (decide (k = k')) as [->|Hne].
  - apply dict_get_set_eq.
  - by apply dict_get_set_ne.
Qed.

Lemma dict_get_None k d : dict_get k d = None ↔ k ∉ dict_keys d.
Proof.
  unfold dict_keys. induction d as [|[k' v'] d IH]; simpl.
  - split; [intros _; apply not_elem_of_nil|done].
  - rewrite not_elem_of_cons. destruct (decide (k = k')) as [->|Hne].
    + split; [done|]. by intros [? _].
    + rewrite IH. intuition.
Qed.

Lemma dict_get_Some_key k v d : dict_get k d = Some v → k ∈ dict_keys d.
Proof.
  intros Hget. destruct (decide (k ∈ dict_keys d)) as [|Hn]; [done|].
  apply dict_get_None in Hn. congruence.
Qed.

Lemma dict_set_new k v d : k ∉ dict_keys d → dict_set k v d = d ++ [(k, v)].
Proof.
  unfold dict_keys. induction d as [|[k' v'] d IH]; simpl; [done|].
  rewrite not_elem_of_cons. intros [Hne Hd].
  rewrite decide_False by done. by rewrite IH.
Qed.

Lemma dict_keys_cons k v d : dict_keys ((k, v) :: d) = k :: dict_keys d.
Proof. done. Qed.

Lemma dict_keys_set_old k v d : k ∈ dict_keys d → dict_keys (dict_set k v d) = dict_keys d.
Proof.
  induction d as [|[k' v'] d IH]; intros Hin.
  - by apply elem_of_nil in Hin.
  - cbn [dict_set]. destruct (decide (k = k')) as [->|Hne]; [done|].
    rewrite !dict_keys_cons in *.
    apply elem_of_cons in Hin as [?|Hin]; [done|]. by rewrite IH.
Qed.

Lemma dict_keys_set_NoDup k v d : NoDup (dict_keys d) → NoDup (dict_keys (dict_set k v d)).
Proof.
  intros Hnd. destruct (decide (k ∈ dict_keys d)) as [Hin|Hin].
  - by rewrite dict_keys_set_old.
  - rewrite dict_set_new by done. unfold dict_keys in *.
    rewrite fmap_app. apply NoDup_app. split; [done|]. simpl.
    split; [|apply NoDup_singleton]. intros x Hx ->%list_elem_of_singleton. done.
Qed.
Lemma dict_keys_elem k d : k ∈ dict_keys d ↔ is_Some (dict_get k d).
Proof.
  split.
  - intros Hin. destruct (dict_get k d) eqn:Hget; [done|].
    by apply dict_get_None in Hget.
  - intros [v Hv]. by eapply dict_get_Some_key.
Qed.

Lemma dict_keys_set_elem k k' v d :
  k' ∈ dict_keys (dict_set k v d) ↔ k' = k ∨ k' ∈ dict_keys d.
Proof.
  rewrite !dict_keys_elem, dict_get_set.
  destruct (decide (k = k')) as [->|Hne].
  - split; [by left|done].
  - split; [by right|]. by intros [->|?].
Qed.
End dict_facts.

(** ** JSON documents *)

Lemma json_nested_ind (P : json → Prop) :
  P JNull → (∀ b, P (JBool b)) → (∀ n, P (JInt n)) → (∀ f, P (JFloat f)) →
  (∀ s, P (JStr s)) →
  (∀ l, Forall P l → P (JArr l)) →
  (∀ m, Forall (λ kv, P kv.2) m → P (JObj m)) →
  ∀ j, P j.
Proof.
  intros Hnull Hbool Hint Hfloat Hstr Harr Hobj.
  fix IH 1.
  intros [|b|n|f|s|l|m];
    [exact Hnull|apply Hbool|apply Hint|apply Hfloat|apply Hstr| | ].
  - apply Harr. induction l as [|j l IHl]; constructor; [apply IH|exact IHl].
  - apply Hobj. induction m as [|[k j] m IHm]; constructor; [apply IH|exact IHm].
Qed.

Lemma pyval_nested_ind (P : pyval → Prop) :
  P PNone → (∀ b, P (PBool b)) → (∀ n, P (PInt n)) → (∀ f, P (PFloat f)) →
  (∀ s, P (PStr s)) →
  (∀ l, Forall P l → P (PList l)) →
  (∀ d, Forall (λ kv, P kv.2) d → P (PDict d)) →
  ∀ v, P v.
Proof.
  intros Hnone Hbool Hint Hfloat Hstr Hlist Hdict.
  fix IH 1.
  intros [|b|n|f|s|l|d];
    [exact Hnone|apply Hbool|apply Hint|apply Hfloat|apply Hstr| | ].
  - apply Hlist. induction l as [|v l IHl]; constructor; [apply IH|exact IHl].
  - apply Hdict. induction d as [|[k v] d IHd]; constructor; [apply IH|exact IHd].
Qed.

Lemma forallb_dict_set {K V} `{EqDecision K} (Q : K * V → bool) k v (d : list (K * V)) :
  Q (k, v) = true → forallb Q d = true → forallb Q (dict_set k v d) = true.
Proof.
  intros Hq. induction d as [|[k' v'] d IH]; simpl.
  - by rewrite Hq.
  - intros [Hk Hd]%andb_true_iff. destruct (decide (k = k')) as [<-|Hne]; simpl.
    + by rewrite Hq, Hd.
    + by rewrite Hk, IH.
Qed.

Lemma load_members_str_keyed (m : list (string * json)) acc :
  Forall (λ kv, str_keyed (Json.load kv.2) = true) m →
  str_keyed (PDict acc) = true →
  str_keyed (PDict (foldl (λ d kv, dict_set (KStr kv.1) (Json.load kv.2) d) acc m)) = true.
Proof.
  intros Hm. revert acc. induction Hm as [|[k j] m Hj _ IH]; intros acc Hacc; [done|].
  cbn [foldl fst snd]. apply IH. cbn [str_keyed].
  apply forallb_dict_set; [|exact Hacc]. simpl in *. by rewrite Hj.
Qed.

Lemma load_str_keyed j : str_keyed (Json.load j) = true.
Proof.
  induction j as [| | | | |l IH|m IH] using json_nested_ind; try done.
  - cbn [Json.load str_keyed]. induction IH as [|j l Hj _ IHl]; [done|].
    simpl. by rewrite Hj.
  - cbn [Json.load]. by apply load_members_str_keyed.
Qed.

Lemma str_keyed_dict_get d k v :
  str_keyed (PDict d) = true → dict_get k d = Some v →
  is_str_key k = true ∧ str_keyed v = true.
Proof.
  cbn [str_keyed]. induction d as [|[k' v'] d IH]; simpl; [done|].
  intros [[Hk Hv]%andb_true_iff Hd]%andb_true_iff.
  destruct (decide (k = k')) as [->|Hne]; [|by apply IH].
  by intros [= <-].
Qed.

Lemma str_keyed_keys d k :
  str_keyed (PDict d) = true → k ∈ dict_keys d → is_str_key k = true.
Proof.
  intros Hd Hk. destruct (dict_get k d) as [v|] eqn:Hget.
  - by destruct (str_keyed_dict_get _ _ _ Hd Hget).
  - by apply dict_get_None in Hget.
Qed.

Lemma foldl_dict_set_fresh {K V} `{EqDecision K} (d acc : list (K * V)) :
  NoDup (dict_keys (acc ++ d)) →
  foldl (λ a kv, dict_set kv.1 kv.2 a) acc d = acc ++ d.
Proof.
  revert acc. induction d as [|[k v] d IH]; intros acc Hnd.
  - by rewrite app_nil_r.
  - cbn [foldl fst snd]. rewrite dict_set_new.
    + rewrite IH; rewrite <-app_assoc; done.
    + unfold dict_keys in Hnd. rewrite fmap_app in Hnd.
      apply NoDup_app in Hnd as (_ & Hdisj & _). intros Hin.
      apply (Hdisj k Hin). by left.
Qed.

Lemma load_dump_members (d : list (pykey * pyval)) :
  Forall (λ kv, is_str_key kv.1 = true ∧ Json.load (Json.dump kv.2) = kv.2) d →
  ∀ acc,
    foldl (λ a kv, dict_set (KStr kv.1) (Json.load kv.2) a) acc
      (map (λ kv, (Json.key_text kv.1, Json.dump kv.2)) d)
    = foldl (λ a kv, dict_set kv.1 kv.2 a) acc d.
Proof.
  induction 1 as [|[k v] d [Hk Hv] _ IH]; intros acc; [done|].
  cbn [map foldl fst snd] in *. rewrite Hv, IH.
  by destruct k.
Qed.

(** What [json.load] reads from what [json.dump] wrote is the value itself
    when the value is one JSON represents as it is. *)
Lemma load_dump v : json_compatible v = true → Json.load (Json.dump v) = v.
Proof.
  induction v as [| | | | |l IH|d IH] using pyval_nested_ind; try done.
  - cbn [json_compatible Json.dump Json.load]. intros Hl. f_equal.
    induction IH as [|v l Hv _ IHl]; [done|].
    simpl in Hl. apply andb_true_iff in Hl as [Hv' Hl].
    cbn [map]. by rewrite Hv, IHl.
  - cbn [json_compatible Json.dump Json.load].
    intros [Hnd Hd]%andb_true_iff. apply bool_decide_eq_true in Hnd. f_equal.
    rewrite load_dump_members.
    + by apply foldl_dict_set_fresh.
    + clear Hnd. induction IH as [|[k v] d Hv _ IHd]; [done|].
      simpl in Hd. apply andb_true_iff in Hd as [[Hk Hv']%andb_true_iff Hd].
      constructor; [|by apply IHd]. split; [done|]. by apply Hv.
Qed.

(** What is read back has [str] keys only, whatever was written. *)
Lemma load_dump_str_keyed v : str_keyed (Json.load (Json.dump v)) = true.
Proof. apply load_str_keyed. Qed.

Lemma load_dump_results data :
  getitem (Json.load (Json.dump (PDict [(KStr "results", data)]))) "results"
  = Ok (Json.load (Json.dump data)).
Proof. done. Qed.

Lemma load_dump_is_dict d : ∃ d', Json.load (Json.dump (PDict d)) = PDict d'.
Proof. by eexists. Qed.

Lemma keys_load_members (ps : list (string * json)) acc k :
  k ∈ dict_keys (foldl (λ a kv, dict_set (KStr kv.1) (Json.load kv.2) a) acc ps)
  ↔ k ∈ dict_keys acc ∨ ∃ kv, kv ∈ ps ∧ k = KStr kv.1.
Proof.
  revert acc. induction ps as [|[name j] ps IH]; intros acc; cbn [foldl fst snd].
  - split; [by left|]. by intros [?|(? & ?%elem_of_nil & _)].
  - rewrite IH, dict_keys_set_elem. split.
    + intros [[->|?]|(kv & Hkv & ->)]; [|by left|].
      * right. exists (name, j). split; [by left|done].
      * right. exists kv. split; [by right|done].
    + intros [?|(kv & [->|Hkv]%elem_of_cons & ->)]; [by left; right|by left; left|].
      right. by exists kv.
Qed.

(** The keys read back are the texts of the keys written. *)
Lemma keys_load_dump d r k :
  Json.load (Json.dump (PDict d)) = PDict r →
  k ∈ dict_keys r ↔ ∃ k0, k0 ∈ dict_keys d ∧ k = KStr (Json.key_text k0).
Proof.
  cbn [Json.load Json.dump]. intros [= <-]. rewrite keys_load_members. split.
  - intros [?%elem_of_nil|(kv & Hkv & ->)]; [done|].
    apply list_elem_of_fmap in Hkv as ([k0 v0] & -> & Hin).
    exists k0. split; [|done]. apply list_elem_of_fmap. by exists (k0, v0).
  - intros (k0 & Hk0 & ->). right.
    apply list_elem_of_fmap in Hk0 as ([k1 v1] & -> & Hin).
    exists (Json.key_text k1, Json.dump v1). split; [|done].
    apply list_elem_of_fmap. by exists (k1, v1).
Qed.

(** ** Interaction counts *)

Lemma words_pieces body : words body = pieces body.
Proof. unfold words, pieces. rewrite split_length. lia. Qed.

Lemma total_by_cons count a comment comments :
  total_by count a (comment :: comments)
  = (if decide (author comment = a) then count (comment_body comment) else 0)
    + total_by count a comments.
Proof.
  unfold total_by. rewrite filter_cons. by destruct (decide (author comment = a)).
Qed.

Lemma interactions_init comments (acc : list (string * Z)) :
  let d := foldl (λ d kv, dict_set kv.1 kv.2 d) acc ((λ c, (author c, 0)) <$> comments) in
  (NoDup (dict_keys acc) → NoDup (dict_keys d))
  ∧ ∀ a, dict_get a d = if decide (a ∈ author <$> comments) then Some 0 else dict_get a acc.
Proof.
  revert acc. induction comments as [|c comments IH]; intros acc.
  - split; [done|]. intros a. rewrite decide_False; [done|apply not_elem_of_nil].
  - rewrite !fmap_cons. cbn [foldl fst snd].
    destruct (IH (dict_set (author c) 0 acc)) as [Hnd Hget]. split.
    + intros Hacc. by apply Hnd, dict_keys_set_NoDup.
    + intros a. rewrite Hget, dict_get_set.
      destruct (decide (a ∈ author <$> comments)) as [Hin|Hin].
      * rewrite decide_True; [done|by apply elem_of_cons; right].
      * destruct (decide (author c = a)) as [<-|Hne].
        -- rewrite decide_True; [done|by apply elem_of_cons; left].
        -- rewrite decide_False; [done|]. rewrite not_elem_of_cons. by split.
Qed.

Lemma interactions_accumulate comments (m : list (string * Z)) :
  (∀ c, c ∈ comments → is_Some (dict_get (author c) m)) →
  ∃ m',
    for_each comments
      (λ interactions comment,
         let k := login (comment_user comment) in
         n ← dict_get k interactions ?! KeyError;
         Ok (dict_set k (n + words (comment_body comment)) interactions)) m = Ok m'
    ∧ dict_keys m' = dict_keys m
    ∧ ∀ a, dict_get a m' = (λ n, n + total_by pieces a comments) <$> dict_get a m.
Proof.
  revert m. induction comments as [|c comments IH]; intros m Hall.
  - exists m. split; [done|]. split; [done|]. intros a.
    unfold total_by. simpl. destruct (dict_get a m); simpl; [|done]. f_equal. lia.
  - cbn [for_each]. destruct (Hall c) as [n Hn]; [by left|].
    fold (author c). rewrite Hn. cbn [or_raise mbind result_bind].
    destruct (IH (dict_set (author c) (n + words (comment_body c)) m)) as (m' & Hrun & Hkeys & Hget).
    { intros c' Hc'. rewrite dict_get_set. destruct (decide _); [done|].
      apply Hall. by right. }
    exists m'. split; [done|]. split.
    + rewrite Hkeys. apply dict_keys_set_old. by eapply dict_get_Some_key.
    + intros a. rewrite Hget, dict_get_set, total_by_cons, words_pieces.
      destruct (decide (author c = a)) as [<-|Hne].
      * rewrite Hn. simpl. f_equal. lia.
      * destruct (dict_get a m); simpl; [|done]. f_equal.
Qed.

Lemma get_interactions_sum (comments : list IssueComment) :
  ∃ m, get_interactions comments = Ok m
       ∧ NoDup (dict_keys m)
       ∧ ∀ a, dict_get a m
              = if decide (a ∈ author <$> comments)
                then Some (total_by pieces a comments) else None.
Proof.
  unfold get_interactions, dict_of_pairs.
  destruct (interactions_init comments []) as [Hnd Hinit].
  set (d0 := foldl _ [] _) in *.
  destruct (interactions_accumulate comments d0) as (m & Hrun & Hkeys & Hget).
  { intros c Hc. rewrite Hinit, decide_True; [done|].
    apply list_elem_of_fmap. by exists c. }
  exists m. split; [exact Hrun|]. split.
  - rewrite Hkeys. apply Hnd. constructor.
  - intros a. rewrite Hget, Hinit.
    by destruct (decide (a ∈ author <$> comments)).
Qed.


(** C8: the docstring of [get_interactions] and the comment in its loop
    promise the number of words of the comments of each author. The body
    "hi  there", with two spaces, has two words when it is split on
    whitespace, and the code counts three for its author: [split(' ')] gives
    the empty piece between the two spaces. On the bodies "hi there" and
    "ok" the code gives the word counts 2 and 1. *)
Theorem get_interactions_double_space :
  whitespace_words "hi  there" = 2
  ∧ get_interactions [sample_comment "A" "hi  there"] = Ok [("A", 3)]
  ∧ get_interactions [sample_comment "A" "hi  there"]
    ≠ Ok [("A", whitespace_words "hi  there")]
  ∧ get_interactions [sample_comment "A" "hi there"; sample_comment "B" "ok"]
    = Ok [("A", whitespace_words "hi there"); ("B", whitespace_words "ok")].
Proof. by vm_compute. Qed.

(** ** New entities *)

Lemma filter_ext_in {A} (P Q : A → Prop) `{∀ x, Decision (P x)} `{∀ x, Decision (Q x)}
    (l : list A) :
  (∀ x, x ∈ l → P x ↔ Q x) → filter P l = filter Q l.
Proof.
  induction l as [|x l IH]; intros Hext; [done|].
  rewrite !filter_cons, IH.
  - destruct (decide (P x)) as [HP|HP], (decide (Q x)) as [HQ|HQ]; try done;
      exfalso; apply (Hext x) in HP || apply (Hext x) in HQ; done || by left.
  - intros y Hy. apply Hext. by right.
Qed.

Lemma filter_all {A} (P : A → Prop) `{∀ x, Decision (P x)} (l : list A) :
  (∀ x, x ∈ l → P x) → filter P l = l.
Proof.
  induction l as [|x l IH]; intros Hall; [done|].
  rewrite filter_cons, decide_True by (apply Hall; by left).
  rewrite IH; [done|]. intros y Hy. apply Hall. by right.
Qed.

Lemma filter_none {A} (P : A → Prop) `{∀ x, Decision (P x)} (l : list A) :
  (∀ x, x ∈ l → ¬ P x) → filter P l = [].
Proof.
  induction l as [|x l IH]; intros Hall; [done|].
  rewrite filter_cons, decide_False by (apply Hall; by left).
  apply IH. intros y Hy. apply Hall. by right.
Qed.

Lemma mapM_key_int ids P :
  Forall2 (λ k n, key_int k = Ok n) ids P → mapM key_int ids = Ok P.
Proof.
  induction 1 as [|k n ids P Hk _ IH]; [done|].
  cbn [mapM]. rewrite Hk. cbn [mbind result_bind in_state].
  cbn [mapM] in IH. by rewrite IH.
Qed.

Lemma mapM_key_int_inv ids P :
  mapM key_int ids = Ok P → Forall2 (λ k n, key_int k = Ok n) ids P.
Proof.
  revert P. induction ids as [|k ids IH]; intros P.
  - intros [= <-]. constructor.
  - cbn [mapM]. destruct (key_int k) as [n|] eqn:Hk; [|done].
    cbn [mbind result_bind in_state]. fold (mapM key_int ids).
    destruct (mapM key_int ids) as [P'|]; [|done].
    intros [= <-]. constructor; [done|]. by apply IH.
Qed.

(** The result of [get_only_new_entities] once the keys are converted. *)
Lemma get_only_new_entities_ids {E} `{Numbered E} d (new_data : list E) ids :
  Forall2 (λ k n, key_int k = Ok n) (dict_keys d) ids →
  get_only_new_entities (PDict d) new_data
  = Ok (filter (λ x, number x ∉ ids) new_data).
Proof.
  intros Hids. unfold get_only_new_entities. cbn [keys mbind result_bind].
  rewrite (mapM_key_int _ _ Hids). cbn [mbind result_bind in_state]. f_equal.
  apply filter_ext_in. intros x Hx. rewrite elem_of_difference, !elem_of_list_to_set.
  split; [by intros [_ ?]|]. intros Hn. split; [|done].
  apply list_elem_of_fmap. by exists x.
Qed.

(** C1: when the keys of the previous Snapshot convert to the integers
    [ids] (the set P) and the identifiers of the listing form the set C,
    [get_only_new_entities] returns exactly the listed entities, in the order
    of the listing, whose identifier lies in C \ P; an empty Snapshot yields
    the whole listing, and C ⊆ P yields the empty list. *)
Theorem get_only_new_entities_difference {E} `{Numbered E}
    (d : list (pykey * pyval)) (new_data : list E) (ids : list Z) :
  Forall2 (λ k n, key_int k = Ok n) (dict_keys d) ids →
  let P : gset Z := list_to_set ids in
  let C : gset Z := list_to_set (number <$> new_data) in
  get_only_new_entities (PDict d) new_data
  = Ok (filter (λ x, number x ∈ C ∖ P) new_data)
  ∧ (∀ x, x ∈ filter (λ x, number x ∈ C ∖ P) new_data ↔ x ∈ new_data ∧ number x ∉ P)
  ∧ (P = ∅ → get_only_new_entities (PDict d) new_data = Ok new_data)
  ∧ (C ⊆ P → get_only_new_entities (PDict d) new_data = Ok []).
Proof.
  intros Hids P C.
  assert (∀ x, x ∈ new_data → number x ∈ C) as HC.
  { intros x Hx. apply elem_of_list_to_set, list_elem_of_fmap. by exists x. }
  rewrite (get_only_new_entities_ids _ _ _ Hids).
  split; [|split; [|split]].
  - f_equal. apply filter_ext_in. intros x Hx.
    rewrite elem_of_difference. unfold P. rewrite elem_of_list_to_set.
    split; [|by intros [_ ?]]. intros Hn. split; [by apply HC|done].
  - intros x. rewrite list_elem_of_filter, elem_of_difference. split.
    + by intros [[_ ?] ?].
    + intros [Hx Hn]. split; [|done]. split; [by apply HC|done].
  - intros HP. f_equal. apply filter_all. intros x _.
    intros Hin. apply (elem_of_list_to_set (C:=gset Z)) in Hin.
    fold P in Hin. rewrite HP in Hin. by apply not_elem_of_empty in Hin.
  - intros Hsub. f_equal. apply filter_none. intros x Hx Hn. apply Hn.
    apply (elem_of_list_to_set (C:=gset Z)). apply Hsub. by apply HC.
Qed.

Lemma get_only_new_entities_difference_witness :
  get_only_new_entities
    (PDict [(KStr "1", PNone); (KStr "007", PNone)])
    [sample_issue 7 None []; sample_issue 2 None []; sample_issue 1 None [];
     sample_issue 3 None []]
  = Ok [sample_issue 2 None []; sample_issue 3 None []].
Proof.
  refine (eq_trans
    (proj1 (get_only_new_entities_difference
              [(KStr "1", PNone); (KStr "007", PNone)]
              [sample_issue 7 None []; sample_issue 2 None []; sample_issue 1 None [];
               sample_issue 3 None []]
              [1; 7] _)) _).
  - repeat constructor.
  - reflexivity.
Defined.

(** ** A sync cycle *)

Lemma load_previous_knowledge_str_keyed path w data :
  load_previous_knowledge path w = Ok data → str_keyed data = true.
Proof.
  unfold load_previous_knowledge.
  destruct (files w !! path) as [[|j|]|]; cbn; try by intros [= <-].
  - pose proof (load_str_keyed j) as Hj.
    destruct (Json.load j) as [| | | | | |d]; cbn; try done.
    destruct (dict_get (KStr "results") d) as [results|] eqn:Hget; cbn; [|done].
    destruct (str_keyed_dict_get _ _ _ Hj Hget) as [_ Hr].
    destruct (len results); cbn; [|done]. by intros [= <-].
Qed.

Lemma get_only_new_entities_inv {E} `{Numbered E} data (new_data res : list E) :
  get_only_new_entities data new_data = Ok res →
  ∃ d ids, data = PDict d
           ∧ Forall2 (λ k n, key_int k = Ok n) (dict_keys d) ids
           ∧ res = filter (λ x, number x ∉ ids) new_data.
Proof.
  intros Hres. destruct data as [| | | | | |d]; try done.
  assert (∃ ids, mapM key_int (dict_keys d) = Ok ids) as [ids Hids].
  { unfold get_only_new_entities in Hres. cbn [keys mbind result_bind] in Hres.
    destruct (mapM key_int (dict_keys d)) as [ids|]; [by exists ids|done]. }
  apply mapM_key_int_inv in Hids. exists d, ids. split; [done|]. split; [done|].
  rewrite (get_only_new_entities_ids _ _ _ Hids) in Hres. by injection Hres.
Qed.

Lemma store_issue_dict issue d :
  ∃ r, store_issue issue (PDict d)
       = Ok (PDict (match issue_pull_request issue with
                    | Some _ => d
                    | None => dict_set (KInt (issue_number issue)) r d
                    end)).
Proof.
  unfold store_issue. destruct (issue_pull_request issue); [by exists PNone|].
  destruct (get_interactions_sum (issue_comments issue)) as (m & -> & _).
  cbn [mbind result_bind setitem]. by eexists.
Qed.

Lemma for_each_store_issue new_issues d :
  ∃ d', for_each new_issues (λ data issue, store_issue issue data) (PDict d) = Ok (PDict d')
        ∧ (∀ k, is_str_key k = true → dict_get k d' = dict_get k d)
        ∧ (∀ k, k ∈ dict_keys d'
                ↔ k ∈ dict_keys d
                  ∨ ∃ issue, issue ∈ new_issues ∧ issue_pull_request issue = None
                             ∧ k = KInt (issue_number issue)).
Proof.
  revert d. induction new_issues as [|issue new_issues IH]; intros d.
  - exists d. split; [done|]. split; [done|]. intros k. split; [by left|].
    by intros [?|(? & ?%elem_of_nil & _)].
  - cbn [for_each]. destruct (store_issue_dict issue d) as [r ->].
    cbn [mbind result_bind in_state].
    destruct (IH (match issue_pull_request issue with
                  | Some _ => d
                  | None => dict_set (KInt (issue_number issue)) r d
                  end)) as (d' & Hrun & Hstr & Hkeys).
    exists d'. split; [done|]. split.
    + intros k Hk. rewrite (Hstr k Hk). destruct (issue_pull_request issue); [done|].
      apply dict_get_set_ne. by destruct k.
    + intros k. rewrite Hkeys. clear Hrun Hstr Hkeys.
      destruct (issue_pull_request issue) as [pr|] eqn:Hpr.
      * split.
        -- intros [?|(i & Hi & Hnone & ->)]; [by left|].
           right. exists i. split; [by right|done].
        -- intros [?|(i & [->|Hi]%elem_of_cons & Hnone & ->)]; [by left|congruence|].
           right. by exists i.
      * rewrite dict_keys_set_elem. split.
        -- intros [[->|?]|(i & Hi & Hnone & ->)]; [|by left|].
           ++ right. exists issue. split; [by left|done].
           ++ right. exists i. split; [by right|done].
        -- intros [?|(i & [->|Hi]%elem_of_cons & Hnone & ->)];
             [by left; right|by left; left|].
           right. by exists i.
Qed.

Lemma store_pullrequest_dict pull results res :
  store_pullrequest pull results = Ok res →
  ∃ d r, results = PDict d
         ∧ res = PDict (dict_set (KStr (Py.str (pull_number pull))) r d).
Proof.
  unfold store_pullrequest.
  destruct (get_labeled_size _); cbn [mbind result_bind in_state]; [|done].
  destruct (get_referenced_issues _); cbn [mbind result_bind in_state]; [|done].
  destruct (get_interactions _); cbn [mbind result_bind in_state]; [|done].
  destruct results; try done. cbn [setitem]. intros [= <-]. by eexists _, _.
Qed.

Lemma for_each_store_pullrequest new_pulls d res :
  for_each new_pulls (λ results pull, store_pullrequest pull results) (PDict d) = Ok res →
  ∃ d', res = PDict d'
        ∧ (∀ k, (∀ pull, pull ∈ new_pulls → k ≠ KStr (Py.str (pull_number pull))) →
                dict_get k d' = dict_get k d)
        ∧ (∀ k, k ∈ dict_keys d'
                ↔ k ∈ dict_keys d
                  ∨ ∃ pull, pull ∈ new_pulls ∧ k = KStr (Py.str (pull_number pull))).
Proof.
  revert d. induction new_pulls as [|pull new_pulls IH]; intros d.
  - intros [= <-]. exists d. split; [done|]. split; [done|]. intros k.
    split; [by left|]. by intros [?|(? & ?%elem_of_nil & _)].
  - cbn [for_each].
    destruct (store_pullrequest pull (PDict d)) as [res1|] eqn:Hstore; [|done].
    destruct (store_pullrequest_dict _ _ _ Hstore) as (d0 & r & [= <-] & ->).
    cbn [mbind result_bind in_state]. intros Hrun.
    destruct (IH _ Hrun) as (d' & -> & Hget & Hkeys). exists d'. split; [done|]. split.
    + intros k Hk. rewrite Hget.
      * apply dict_get_set_ne. intros <-. apply (Hk pull); [by left|done].
      * intros p Hp. apply Hk. by right.
    + intros k. rewrite Hkeys, dict_keys_set_elem. split.
      * intros [[->|?]|(p & Hp & ->)]; [|by left|].
        -- right. exists pull. split; [by left|done].
        -- right. exists p. split; [by right|done].
      * intros [?|(p & [->|Hp]%elem_of_cons & ->)]; [by left; right|by left; left|].
        right. by exists p.
Qed.

(** A key of the previous Snapshot is not the text of a new number. *)
Lemma previous_key_not_new (d : list (pykey * pyval)) ids k n :
  Forall2 (λ k n, key_int k = Ok n) (dict_keys d) ids →
  k ∈ dict_keys d → n ∉ ids → k ≠ KStr (Py.str n).
Proof.
  intros Hids Hk Hn ->. apply Hn. clear Hn.
  induction Hids as [|k' n' ks ids' Hk' _ IH]; [by apply elem_of_nil in Hk|].
  apply elem_of_cons in Hk as [<-|Hk]; [|right; by apply IH].
  cbn [key_int] in Hk'. rewrite int_str in Hk'. injection Hk' as <-. by left.
Qed.

(** C7: when the computed new-entity set is empty, [analyse_issues] and
    [analyse_pullrequests] return with the state as it was: no file is
    written and [save_knowledge] is not called. *)
Theorem no_new_entities_no_save (joinpath : Path → string → Path)
    (project : Repository) (project_knowledge : Path) (w : world) :
  (∀ data,
     load_previous_knowledge (joinpath project_knowledge "./issues.json") w = Ok data →
     get_only_new_entities data
       (filter (λ issue, issue_pull_request issue = None) (closed_issues project)) = Ok [] →
     analyse_issues joinpath project project_knowledge w = Ok w)
  ∧ (∀ data,
     load_previous_knowledge (joinpath project_knowledge "./pull_requests.json") w = Ok data →
     get_only_new_entities data (closed_pulls project) = Ok [] →
     analyse_pullrequests joinpath project project_knowledge w = Ok w).
Proof.
  split; intros data Hload Hnew.
  - unfold analyse_issues. rewrite Hload. cbn [mbind result_bind in_state]. by rewrite Hnew.
  - unfold analyse_pullrequests. rewrite Hload. cbn [mbind result_bind in_state]. by rewrite Hnew.
Qed.

Lemma no_new_entities_no_save_witness :
  analyse_issues sample_joinpath sample_project "kb"
    {| files := sample_files_all; saved := [] |}
  = Ok {| files := sample_files_all; saved := [] |}
  ∧ analyse_pullrequests sample_joinpath sample_project "kb"
      {| files := sample_files_all; saved := [] |}
    = Ok {| files := sample_files_all; saved := [] |}.
Proof.
  split.
  - refine (proj1 (no_new_entities_no_save sample_joinpath sample_project "kb"
                     {| files := sample_files_all; saved := [] |})
              (PDict [(KStr "1", PDict []); (KStr "2", PDict [])]) _ _);
      vm_compute; reflexivity.
  - refine (proj2 (no_new_entities_no_save sample_joinpath sample_project "kb"
                     {| files := sample_files_all; saved := [] |})
              (PDict [(KStr "3", PDict []); (KStr "4", PDict [])]) _ _);
      vm_compute; reflexivity.
Defined.

Lemma save_then_load path d w :
  ∃ w', save_knowledge path (PDict d) w = Ok w'
        ∧ saved w' = saved w ++ [(path, PDict d)]
        ∧ load_previous_knowledge path w' = Ok (Json.load (Json.dump (PDict d))).
Proof.
  eexists. split; [reflexivity|]. split; [reflexivity|].
  unfold load_previous_knowledge. cbn [files]. rewrite lookup_insert_eq.
  cbn [getsize_is_zero json_load_file mbind result_bind].
  rewrite load_dump_results. cbn [mbind result_bind in_state].
  by destruct (load_dump_is_dict d) as [d' ->].
Qed.

Lemma analyse_issues_cases joinpath project project_knowledge w prev new_issues :
  let data_path := joinpath project_knowledge "./issues.json" in
  let current_issues :=
    filter (λ issue, issue_pull_request issue = None) (closed_issues project) in
  load_previous_knowledge data_path w = Ok prev →
  get_only_new_entities prev current_issues = Ok new_issues →
  ∃ d d' ids,
    prev = PDict d
    ∧ Forall2 (λ k n, key_int k = Ok n) (dict_keys d) ids
    ∧ new_issues = filter (λ x, number x ∉ ids) current_issues
    ∧ (∀ k, is_str_key k = true → dict_get k d' = dict_get k d)
    ∧ (∀ k, k ∈ dict_keys d'
            ↔ k ∈ dict_keys d
              ∨ ∃ issue, issue ∈ new_issues ∧ k = KInt (issue_number issue))
    ∧ analyse_issues joinpath project project_knowledge w
      = if decide (length new_issues = 0%nat) then Ok w
        else save_knowledge data_path (PDict d') w.
Proof.
  intros data_path current_issues Hload Hnew.
  destruct (get_only_new_entities_inv _ _ _ Hnew) as (d & ids & -> & Hids & Hres).
  destruct (for_each_store_issue new_issues d) as (d' & Hrun & Hstr & Hkeys).
  exists d, d', ids. do 4 (split; [done|]). split.
  - intros k. rewrite Hkeys. split.
    + intros [?|(i & Hi & _ & ->)]; [by left|]. right. by exists i.
    + intros [?|(i & Hi & ->)]; [by left|]. right. exists i. split; [done|].
      split; [|done]. rewrite Hres in Hi. apply list_elem_of_filter in Hi as [_ Hi].
      by apply list_elem_of_filter in Hi as [? _].
  - unfold analyse_issues. fold data_path current_issues.
    rewrite Hload. cbn [mbind result_bind in_state].
    rewrite Hnew. cbn [mbind result_bind in_state].
    destruct (decide (length new_issues = 0%nat)); [done|]. by rewrite Hrun.
Qed.

(** C4: in a sync cycle of [analyse_issues] or [analyse_pullrequests] that
    returns, either [save_knowledge] is not called, or it is called once, with
    a merged Snapshot that contains the loaded Snapshot: every key of the
    loaded Snapshot has in the merged one the record it had, so no existing
    key is removed or overwritten. *)
Theorem merged_snapshot_includes_previous (joinpath : Path → string → Path)
    (project : Repository) (project_knowledge : Path) (w w' : world) :
  (∀ prev,
     load_previous_knowledge (joinpath project_knowledge "./issues.json") w = Ok prev →
     analyse_issues joinpath project project_knowledge w = Ok w' →
     saved w' = saved w
     ∨ ∃ merged,
         saved w' = saved w ++ [(joinpath project_knowledge "./issues.json", merged)]
         ∧ dict_included prev merged)
  ∧ (∀ prev,
     load_previous_knowledge (joinpath project_knowledge "./pull_requests.json") w = Ok prev →
     analyse_pullrequests joinpath project project_knowledge w = Ok w' →
     saved w' = saved w
     ∨ ∃ merged,
         saved w' = saved w ++ [(joinpath project_knowledge "./pull_requests.json", merged)]
         ∧ dict_included prev merged).
Proof.
  split; intros prev Hload Hrun.
  - destruct (get_only_new_entities prev
               (filter (λ issue, issue_pull_request issue = None) (closed_issues project)))
      as [new_issues|] eqn:Hnew.
    2: { unfold analyse_issues in Hrun. rewrite Hload in Hrun.
         cbn [mbind result_bind in_state] in Hrun. by rewrite Hnew in Hrun. }
    destruct (analyse_issues_cases joinpath project project_knowledge w _ _ Hload Hnew)
      as (d & d' & ids & -> & _ & _ & Hstr & _ & Heq).
    rewrite Heq in Hrun. destruct (decide (length new_issues = 0%nat)).
    + injection Hrun as <-. by left.
    + right. exists (PDict d').
      destruct (save_then_load (joinpath project_knowledge "./issues.json") d' w)
        as (w1 & Hsave & Hsaved & _).
      rewrite Hsave in Hrun. injection Hrun as <-. split; [done|].
      intros k v Hget. rewrite Hstr; [done|].
      eapply str_keyed_dict_get; [|exact Hget].
      by eapply load_previous_knowledge_str_keyed.
  - unfold analyse_pullrequests in Hrun. rewrite Hload in Hrun.
    cbn [mbind result_bind in_state] in Hrun.
    destruct (get_only_new_entities prev (closed_pulls project)) as [new_pulls|] eqn:Hnew;
      [|done].
    cbn [mbind result_bind in_state] in Hrun.
    destruct (get_only_new_entities_inv _ _ _ Hnew) as (d & ids & -> & Hids & Hres).
    destruct (decide (length new_pulls = 0%nat)).
    + injection Hrun as <-. by left.
    + destruct (for_each new_pulls _ (PDict d)) as [merged|] eqn:Hstore; [|done].
      cbn [mbind result_bind in_state] in Hrun.
      destruct (for_each_store_pullrequest _ _ _ Hstore) as (d' & -> & Hget & _).
      right. exists (PDict d').
      destruct (save_then_load (joinpath project_knowledge "./pull_requests.json") d' w)
        as (w1 & Hsave & Hsaved & _).
      rewrite Hsave in Hrun. injection Hrun as <-. split; [done|].
      intros k v Hk. rewrite Hget; [done|]. intros pull Hpull.
      eapply previous_key_not_new; [exact Hids|by eapply dict_get_Some_key|].
      rewrite Hres in Hpull. by apply list_elem_of_filter in Hpull as [? _].
Qed.

Lemma merged_snapshot_includes_previous_witness :
  (∃ w' merged,
     analyse_issues sample_joinpath sample_project "kb" {| files := sample_files; saved := [] |}
     = Ok w'
     ∧ saved w' = [("kb/issues.json", merged)]
     ∧ dict_included (PDict [(KStr "1", PDict [(KStr "labels", PList [])])]) merged)
  ∧ (∃ w' merged,
     analyse_pullrequests sample_joinpath sample_project "kb"
       {| files := sample_files; saved := [] |}
     = Ok w'
     ∧ saved w' = [("kb/pull_requests.json", merged)]
     ∧ dict_included (PDict [(KStr "3", PDict [(KStr "size", PNone)])]) merged).
Proof.
  split.
  - destruct (analyse_issues sample_joinpath sample_project "kb"
                {| files := sample_files; saved := [] |}) as [w'|] eqn:Hrun;
      [|by vm_compute in Hrun].
    destruct (proj1 (merged_snapshot_includes_previous sample_joinpath sample_project "kb"
                       {| files := sample_files; saved := [] |} w')
                (PDict [(KStr "1", PDict [(KStr "labels", PList [])])]) eq_refl Hrun)
      as [Hsame|(merged & Hsaved & Hincl)].
    + exfalso. vm_compute in Hrun. injection Hrun as <-. discriminate Hsame.
    + by exists w', merged.
  - destruct (analyse_pullrequests sample_joinpath sample_project "kb"
                {| files := sample_files; saved := [] |}) as [w'|] eqn:Hrun;
      [|by vm_compute in Hrun].
    destruct (proj2 (merged_snapshot_includes_previous sample_joinpath sample_project "kb"
                       {| files := sample_files; saved := [] |} w')
                (PDict [(KStr "3", PDict [(KStr "size", PNone)])]) eq_refl Hrun)
      as [Hsame|(merged & Hsaved & Hincl)].
    + exfalso. vm_compute in Hrun. injection Hrun as <-. discriminate Hsame.
    + by exists w', merged.
Defined.



(** ** A second cycle *)

Lemma key_int_total ks :
  Forall (λ k, ∃ n, key_int k = Ok n) ks →
  ∃ ids, Forall2 (λ k n, key_int k = Ok n) ks ids.
Proof.
  induction 1 as [|k ks [n Hn] _ [ids IH]]; [by exists []|].
  exists (n :: ids). by constructor.
Qed.

Lemma key_int_elem ks ids k n :
  Forall2 (λ k n, key_int k = Ok n) ks ids → k ∈ ks → key_int k = Ok n → n ∈ ids.
Proof.
  induction 1 as [|k' n' ks ids Hk' _ IH]; [by intros ?%elem_of_nil|].
  intros [->|Hk]%elem_of_cons Hn; [|right; by apply IH].
  rewrite Hk' in Hn. injection Hn as ->. by left.
Qed.

Lemma key_int_elem_inv ks ids n :
  Forall2 (λ k n, key_int k = Ok n) ks ids → n ∈ ids → ∃ k, k ∈ ks ∧ key_int k = Ok n.
Proof.
  induction 1 as [|k' n' ks ids Hk' _ IH]; [by intros ?%elem_of_nil|].
  intros [->|Hn]%elem_of_cons.
  - exists k'. split; [by left|done].
  - destruct (IH Hn) as (k & Hk & Hkn). exists k. split; [by right|done].
Qed.

(** Once the new entities are stored under keys whose text is the decimal
    text of their number, what is read back knows every listed entity. *)
Lemma reload_knows_all {E} `{Numbered E} (key_of : Z → pykey) (current : list E)
    (d d' : list (pykey * pyval)) ids :
  (∀ n, Json.key_text (key_of n) = Py.str n) →
  str_keyed (PDict d) = true →
  Forall2 (λ k n, key_int k = Ok n) (dict_keys d) ids →
  (∀ k, k ∈ dict_keys d'
        ↔ k ∈ dict_keys d
          ∨ ∃ x, x ∈ filter (λ x, number x ∉ ids) current ∧ k = key_of (number x)) →
  get_only_new_entities (Json.load (Json.dump (PDict d'))) current = Ok [].
Proof.
  intros Hkey Hstr Hids Hkeys.
  destruct (load_dump_is_dict d') as [r Hr]. rewrite Hr.
  pose proof (λ k, keys_load_dump d' r k Hr) as Hkr.
  assert (∀ k0, k0 ∈ dict_keys d → KStr (Json.key_text k0) = k0) as Hold.
  { intros k0 Hk0. pose proof (str_keyed_keys _ _ Hstr Hk0). by destruct k0. }
  assert (∃ ids', Forall2 (λ k n, key_int k = Ok n) (dict_keys r) ids') as [ids' Hids'].
  { apply key_int_total, Forall_forall. intros k (k0 & Hk0 & ->)%Hkr.
    apply Hkeys in Hk0 as [Hk0|(x & _ & ->)].
    - rewrite (Hold _ Hk0). clear -Hids Hk0.
      induction Hids as [|k n ks ids Hk _ IH]; [by apply elem_of_nil in Hk0|].
      apply elem_of_cons in Hk0 as [->|Hk0]; [by exists n|by apply IH].
    - exists (number x). rewrite Hkey. cbn [key_int]. by rewrite int_str. }
  rewrite (get_only_new_entities_ids _ _ _ Hids'). f_equal.
  apply filter_none. intros x Hx Hn. apply Hn. clear Hn.
  destruct (decide (number x ∈ ids)) as [Hin|Hin].
  - destruct (key_int_elem_inv _ _ _ Hids Hin) as (k & Hk & Hkn).
    apply (key_int_elem _ _ k _ Hids'); [|done].
    apply Hkr. exists k. split; [|by rewrite (Hold _ Hk)].
    apply Hkeys. by left.
  - apply (key_int_elem _ _ (KStr (Py.str (number x))) _ Hids').
    + apply Hkr. exists (key_of (number x)). split; [|by rewrite Hkey].
      apply Hkeys. right. exists x. split; [|done].
      apply list_elem_of_filter. by split.
    + cbn [key_int]. by rewrite int_str.
Qed.

(** X1 (idempotence): a sync cycle that returned, run again on the state it left
    and on the same listing, finds no new entity and returns that state as
    it is; no file is written a second time. *)
Theorem second_cycle_changes_nothing (joinpath : Path → string → Path)
    (project : Repository) (project_knowledge : Path) (w w' : world) :
  (analyse_issues joinpath project project_knowledge w = Ok w' →
   analyse_issues joinpath project project_knowledge w' = Ok w')
  ∧ (analyse_pullrequests joinpath project project_knowledge w = Ok w' →
     analyse_pullrequests joinpath project project_knowledge w' = Ok w').
Proof.
  split; intros Hrun.
  - destruct (load_previous_knowledge (joinpath project_knowledge "./issues.json") w)
      as [prev|] eqn:Hload.
    2: { unfold analyse_issues in Hrun. by rewrite Hload in Hrun. }
    destruct (get_only_new_entities prev
               (filter (λ issue, issue_pull_request issue = None) (closed_issues project)))
      as [new_issues|] eqn:Hnew.
    2: { unfold analyse_issues in Hrun. rewrite Hload in Hrun.
         cbn [mbind result_bind in_state] in Hrun. by rewrite Hnew in Hrun. }
    destruct (analyse_issues_cases joinpath project project_knowledge w _ _ Hload Hnew)
      as (d & d' & ids & -> & Hids & Hres & _ & Hkeys & Heq).
    rewrite Heq in Hrun. destruct (decide (length new_issues = 0%nat)).
    + injection Hrun as <-. exact Heq.
    + destruct (save_then_load (joinpath project_knowledge "./issues.json") d' w)
        as (w1 & Hsave & _ & Hreload).
      rewrite Hsave in Hrun. injection Hrun as <-.
      unfold analyse_issues. rewrite Hreload. cbn [mbind result_bind in_state].
      rewrite (reload_knows_all KInt _ d d' ids); [done|done| |done|].
      * by eapply load_previous_knowledge_str_keyed.
      * intros k. rewrite Hkeys, Hres. split.
        -- intros [?|(i & Hi & ->)]; [by left|]. right. by exists i.
        -- intros [?|(i & Hi & ->)]; [by left|]. right. by exists i.
  - unfold analyse_pullrequests in Hrun.
    destruct (load_previous_knowledge (joinpath project_knowledge "./pull_requests.json") w)
      as [prev|] eqn:Hload; [|done].
    cbn [mbind result_bind in_state] in Hrun.
    destruct (get_only_new_entities prev (closed_pulls project)) as [new_pulls|] eqn:Hnew;
      [|done].
    cbn [mbind result_bind in_state] in Hrun.
    destruct (get_only_new_entities_inv _ _ _ Hnew) as (d & ids & -> & Hids & Hres).
    destruct (decide (length new_pulls = 0%nat)) as [Hlen|Hlen].
    + injection Hrun as <-. unfold analyse_pullrequests. rewrite Hload.
      cbn [mbind result_bind in_state]. rewrite Hnew. cbn [mbind result_bind in_state].
      by rewrite decide_True.
    + destruct (for_each new_pulls _ (PDict d)) as [merged|] eqn:Hstore; [|done].
      cbn [mbind result_bind in_state] in Hrun.
      destruct (for_each_store_pullrequest _ _ _ Hstore) as (d' & -> & _ & Hkeys).
      destruct (save_then_load (joinpath project_knowledge "./pull_requests.json") d' w)
        as (w1 & Hsave & _ & Hreload).
      rewrite Hsave in Hrun. injection Hrun as <-.
      unfold analyse_pullrequests. rewrite Hreload. cbn [mbind result_bind in_state].
      rewrite (reload_knows_all (λ n, KStr (Py.str n)) _ d d' ids); [done|done| |done|].
      * by eapply load_previous_knowledge_str_keyed.
      * intros k. rewrite Hkeys, Hres. split.
        -- intros [?|(p & Hp & ->)]; [by left|]. right. by exists p.
        -- intros [?|(p & Hp & ->)]; [by left|]. right. by exists p.
Qed.

Lemma second_cycle_changes_nothing_witness :
  ∃ w', analyse_issues sample_joinpath sample_project "kb"
          {| files := sample_files; saved := [] |} = Ok w'
        ∧ w' ≠ {| files := sample_files; saved := [] |}
        ∧ analyse_issues sample_joinpath sample_project "kb" w' = Ok w'.
Proof.
  destruct (analyse_issues sample_joinpath sample_project "kb"
              {| files := sample_files; saved := [] |}) as [w'|] eqn:Hrun;
    [|by vm_compute in Hrun].
  exists w'. split; [done|]. split.
  - vm_compute in Hrun. injection Hrun as <-. intros [= _ Hsaved].
  - exact (proj1 (second_cycle_changes_nothing sample_joinpath sample_project "kb"
                    {| files := sample_files; saved := [] |} w') Hrun).
Defined.

(** ** A size label without a slash *)

Lemma store_pullrequest_outcome pull d :
  match get_labeled_size (pull_labels pull) with
  | Ok _ => ∃ r, store_pullrequest pull (PDict d)
                 = Ok (PDict (dict_set (KStr (Py.str (pull_number pull))) r d))
  | Raise e => store_pullrequest pull (PDict d) = Raise e
  end.
Proof.
  unfold store_pullrequest.
  destruct (get_labeled_size (pull_labels pull)) as [size|e []]; [|done].
  cbn [mbind result_bind in_state]. rewrite get_referenced_issues_references.
  cbn [mbind result_bind in_state].
  destruct (get_interactions_sum (pull_issue_comments pull)) as (m & -> & _).
  cbn [mbind result_bind setitem]. by eexists.
Qed.

Lemma for_each_store_pullrequest_raises new_pulls d :
  (∃ pull, pull ∈ new_pulls ∧ get_labeled_size (pull_labels pull) = Raise IndexError) →
  (∀ pull e, pull ∈ new_pulls → get_labeled_size (pull_labels pull) = Raise e →
             e = IndexError) →
  for_each new_pulls (λ results pull, store_pullrequest pull results) (PDict d)
  = Raise IndexError.
Proof.
  revert d. induction new_pulls as [|pull new_pulls IH]; intros d (p & Hp & Hraise) Honly.
  - by apply elem_of_nil in Hp.
  - cbn [for_each]. pose proof (store_pullrequest_outcome pull d) as Hout.
    destruct (get_labeled_size (pull_labels pull)) as [size|e []] eqn:Hsize.
    + destruct Hout as [r ->]. cbn [mbind result_bind in_state]. apply IH.
      * apply elem_of_cons in Hp as [->|Hp]; [congruence|]. by exists p.
      * intros q e Hq. apply Honly. by right.
    + rewrite Hout. cbn [mbind result_bind in_state]. f_equal.
      apply (Honly pull); [by left|done].
Qed.

Lemma get_labeled_size_raises labels e :
  get_labeled_size labels = Raise e → e = IndexError.
Proof.
  induction labels as [|label labels IH]; [done|]. cbn [get_labeled_size].
  destruct (Py.startswith "size" label); [|done].
  by destruct (Py.split "/" label !! 1%nat); intros [= <-].
Qed.

(** X2: a new pull request whose first label starting with "size" has no "/"
    aborts the cycle of [analyse_pullrequests] with [IndexError], and the
    exception leaves the state the cycle started in: no file is written and
    [save_knowledge] is not called, so no record of the cycle is saved, also
    not those of the other new pull requests. *)
Theorem size_label_without_slash_aborts_cycle (joinpath : Path → string → Path)
    (project : Repository) (project_knowledge : Path) (w : world)
    (prev : pyval) (new_pulls : list PullRequest) (pull : PullRequest) :
  load_previous_knowledge (joinpath project_knowledge "./pull_requests.json") w = Ok prev →
  get_only_new_entities prev (closed_pulls project) = Ok new_pulls →
  pull ∈ new_pulls →
  get_labeled_size (pull_labels pull) = Raise IndexError →
  analyse_pullrequests joinpath project project_knowledge w = Raised IndexError w.
Proof.
  intros Hload Hnew Hin Hraise. unfold analyse_pullrequests.
  rewrite Hload. cbn [mbind result_bind in_state]. rewrite Hnew. cbn [mbind result_bind in_state].
  destruct (get_only_new_entities_inv _ _ _ Hnew) as (d & ids & -> & _ & _).
  rewrite decide_False by (by destruct new_pulls; [apply elem_of_nil in Hin|]).
  rewrite for_each_store_pullrequest_raises; [done|by exists pull|].
  intros q e _. apply get_labeled_size_raises.
Qed.

Lemma size_label_without_slash_aborts_cycle_witness :
  analyse_pullrequests sample_joinpath
    {| closed_issues := [];
       closed_pulls := [sample_pull 4 [] []; sample_pull 5 ["size"] []] |}
    "kb" {| files := sample_files; saved := [] |}
  = Raised IndexError {| files := sample_files; saved := [] |}.
Proof.
  refine (size_label_without_slash_aborts_cycle sample_joinpath
            {| closed_issues := [];
               closed_pulls := [sample_pull 4 [] []; sample_pull 5 ["size"] []] |}
            "kb" {| files := sample_files; saved := [] |}
            (PDict [(KStr "3", PDict [(KStr "size", PNone)])])
            [sample_pull 4 [] []; sample_pull 5 ["size"] []]
            (sample_pull 5 ["size"] []) _ _ _ _).
  - reflexivity.
  - reflexivity.
  - right. left.
  - reflexivity.
Defined.

(** ** The knowledge storage *)

Section storage_facts.
Variable cwd : Path.
Variable joinpath : Path → string → Path.
Variable relpath : Path → string.

Lemma filename_entity knowledge_type :
  knowledge_type ∈ ["Issue"; "PullRequest"] →
  ∃ filename, dict_get knowledge_type storage._FILENAME_ENTITY = Some filename.
Proof.
  intros [->|[->|?%elem_of_nil]%elem_of_cons]%elem_of_cons; [by eexists..|done].
Qed.

Lemma storage_save_then_load self file_path d w :
  json_compatible (PDict d) = true →
  ∃ w', storage.save_knowledge relpath self file_path (PDict d) w = Ok w'
        ∧ (if storage.is_local self then storage.load_locally file_path w'
           else storage.load_remotely relpath self file_path w') = Ok (PDict d).
Proof.
  intros Hd. unfold storage.save_knowledge. cbn [len mbind result_bind in_state].
  destruct self as [[|]]; cbn [storage.is_local negb]; eexists; (split; [reflexivity|]).
  - unfold storage.load_locally. cbn [storage.files]. rewrite lookup_insert_eq.
    cbn [getsize_is_zero json_load_file mbind result_bind].
    by rewrite load_dump_results, load_dump.
  - unfold storage.load_remotely, storage.retrieve_document, storage.store_document.
    cbn [storage.ceph]. rewrite lookup_insert_eq.
    cbn [or_raise fmap result_fmap mbind result_bind].
    by rewrite load_dump_results, load_dump.
Qed.

(** C5: for every JSON-compatible Snapshot and every path, on the local
    backend as on the object store, [save_knowledge] succeeds and a load of
    the same path from the state it leaves returns the Snapshot that was
    saved. *)
Theorem save_then_load_round_trip (self : storage.KnowledgeStorage) (file_path : Path)
    (d : list (pykey * pyval)) (w : storage.world) :
  json_compatible (PDict d) = true →
  ∃ w', storage.save_knowledge relpath self file_path (PDict d) w = Ok w'
        ∧ (if storage.is_local self then storage.load_locally file_path w'
           else storage.load_remotely relpath self file_path w') = Ok (PDict d)
        ∧ ∀ project_name knowledge_type,
            knowledge_type ∈ ["Issue"; "PullRequest"] →
            storage.load_previous_knowledge cwd joinpath relpath self project_name
              (Some file_path) knowledge_type w' = Ok (PDict d).
Proof.
  intros Hd. destruct (storage_save_then_load self file_path d w Hd) as (w' & Hsave & Hload).
  exists w'. split; [done|]. split; [done|].
  intros project_name knowledge_type [filename Hf]%filename_entity.
  unfold storage.load_previous_knowledge. rewrite Hf. cbn [or_raise mbind result_bind].
  destruct (storage.is_local self); cbn [negb]; by rewrite Hload.
Qed.

(** C6 (as amended): for a knowledge type that [_FILENAME_ENTITY] knows,
    when the local file does not exist, when it has zero length, and when the
    object store raises its not-found condition, the loader of the backend
    returns [None] without raising, and the load of a previous Snapshot
    returns the empty Snapshot; it does not raise. *)
Theorem not_found_loads_empty (self : storage.KnowledgeStorage) (project_name : string)
    (file_path : option Path) (knowledge_type filename : string) (w : storage.world) :
  dict_get knowledge_type storage._FILENAME_ENTITY = Some filename →
  let path := knowledge_path cwd joinpath project_name file_path filename in
  let load := storage.load_previous_knowledge cwd joinpath relpath self project_name
                file_path knowledge_type w in
  (storage.is_local self = true → storage.files w !! path = None →
   storage.load_locally path w = Ok PNone ∧ load = Ok (PDict []))
  ∧ (storage.is_local self = true → storage.files w !! path = Some FEmpty →
     storage.load_locally path w = Ok PNone ∧ load = Ok (PDict []))
  ∧ (storage.is_local self = false →
     storage.retrieve_document (storage.ceph_filename relpath path) w = Raise NotFoundError →
     storage.load_remotely relpath self path w = Ok PNone ∧ load = Ok (PDict [])).
Proof.
  intros Hf path load. subst load. unfold storage.load_previous_knowledge.
  rewrite Hf. cbn [or_raise mbind result_bind].
  fold (knowledge_path cwd joinpath project_name file_path filename). fold path.
  split; [|split]; intros -> Hnone; cbn [negb].
  - unfold storage.load_locally. by rewrite Hnone.
  - unfold storage.load_locally. by rewrite Hnone.
  - unfold storage.load_remotely. by rewrite Hnone.
Qed.
End storage_facts.

Lemma save_then_load_round_trip_witness :
  (∃ w', storage.save_knowledge id {| storage.is_local := true |} "kb/pull_requests.json"
           (PDict sample_snapshot) {| storage.files := ∅; storage.ceph := ∅ |} = Ok w'
         ∧ storage.load_locally "kb/pull_requests.json" w' = Ok (PDict sample_snapshot))
  ∧ (∃ w', storage.save_knowledge id {| storage.is_local := false |} "./kb/pull_requests.json"
             (PDict sample_snapshot) {| storage.files := ∅; storage.ceph := ∅ |} = Ok w'
           ∧ storage.load_remotely id {| storage.is_local := false |}
               "./kb/pull_requests.json" w' = Ok (PDict sample_snapshot)).
Proof.
  split.
  - destruct (save_then_load_round_trip "" sample_joinpath id
                {| storage.is_local := true |} "kb/pull_requests.json" sample_snapshot
                {| storage.files := ∅; storage.ceph := ∅ |} eq_refl)
      as (w' & Hsave & Hload & _).
    by exists w'.
  - destruct (save_then_load_round_trip "" sample_joinpath id
                {| storage.is_local := false |} "./kb/pull_requests.json" sample_snapshot
                {| storage.files := ∅; storage.ceph := ∅ |} eq_refl)
      as (w' & Hsave & Hload & _).
    by exists w'.
Defined.

(** C6 (counterexample): the file does not exist and the object store has
    no document, yet the load of a knowledge type that is no key of
    [_FILENAME_ENTITY] raises [KeyError], on both backends: the file name is
    looked up before the Snapshot is. *)
Lemma not_found_of_unknown_type :
  storage.load_locally "kb/commits.json" {| storage.files := ∅; storage.ceph := ∅ |}
  = Ok PNone
  ∧ storage.load_previous_knowledge "" sample_joinpath id {| storage.is_local := true |}
      "org/repo" (Some "kb/commits.json") "Commit"
      {| storage.files := ∅; storage.ceph := ∅ |}
    = Raise KeyError
  ∧ storage.load_previous_knowledge "" sample_joinpath id {| storage.is_local := false |}
      "org/repo" None "Commit" {| storage.files := ∅; storage.ceph := ∅ |}
    = Raise KeyError.
Proof. by vm_compute. Qed.

Lemma not_found_loads_empty_witness :
  storage.load_previous_knowledge "" sample_joinpath id {| storage.is_local := true |}
    "org/repo" None "Issue" {| storage.files := ∅; storage.ceph := ∅ |} = Ok (PDict [])
  ∧ storage.load_previous_knowledge "" sample_joinpath id {| storage.is_local := true |}
      "org/repo" (Some "kb/issues.json") "Issue"
      {| storage.files := {[ "kb/issues.json" := FEmpty ]}; storage.ceph := ∅ |}
    = Ok (PDict [])
  ∧ storage.load_previous_knowledge "" sample_joinpath id {| storage.is_local := false |}
      "org/repo" None "PullRequest" {| storage.files := ∅; storage.ceph := ∅ |}
    = Ok (PDict []).
Proof.
  split; [|split].
  - refine (proj2 (proj1 (not_found_loads_empty "" sample_joinpath id
                     {| storage.is_local := true |}
                     "org/repo" None "Issue" "issues"
                     {| storage.files := ∅; storage.ceph := ∅ |} eq_refl) eq_refl _)).
    reflexivity.
  - refine (proj2 (proj1 (proj2 (not_found_loads_empty "" sample_joinpath id
                     {| storage.is_local := true |}
                     "org/repo" (Some "kb/issues.json") "Issue" "issues"
                     {| storage.files := {[ "kb/issues.json" := FEmpty ]}; storage.ceph := ∅ |}
                     eq_refl)) eq_refl _)).
    reflexivity.
  - refine (proj2 (proj2 (proj2 (not_found_loads_empty "" sample_joinpath id
                     {| storage.is_local := false |}
                     "org/repo" None "PullRequest" "pull_requests"
                     {| storage.files := ∅; storage.ceph := ∅ |} eq_refl)) eq_refl _)).
    reflexivity.
Defined.

(** * Further properties *)

(** ** Loading and saving in [create_bot_knowledge.py] *)

Lemma dict_get_foldl_set {K V A} `{EqDecision K} (key : A → K) (val : A → V)
    (xs : list A) (acc : list (K * V)) (k : K) :
  dict_get k (foldl (λ d x, dict_set (key x) (val x) d) acc xs)
  = match last (filter (λ x, key x = k) xs) with
    | Some x => Some (val x)
    | None => dict_get k acc
    end.
Proof.
  revert acc. induction xs as [|x xs IH]; intros acc; [done|].
  cbn [foldl]. rewrite IH, filter_cons, dict_get_set.
  destruct (decide (key x = k)) as [Hk|Hk]; [|done].
  destruct (filter (λ x0, key x0 = k) xs) as [|y ys] eqn:Hf; [done|].
  rewrite (last_cons x). destruct (last (y :: ys)) eqn:Hl; [done|].
  by apply last_None in Hl.
Qed.

Lemma load_object_member (m : list (string * json)) (name : string) :
  getitem (Json.load (JObj m)) name
  = match last_member name m with
    | Some j => Ok (Json.load j)
    | None => Raise KeyError
    end.
Proof.
  cbn [Json.load getitem].
  rewrite (dict_get_foldl_set (λ kv, KStr kv.1) (λ kv, Json.load kv.2)).
  unfold last_member.
  rewrite (filter_ext_in (λ kv : string * json, KStr kv.1 = KStr name) (λ kv, kv.1 = name)).
  - by destruct (last _).
  - intros kv _. split; [by intros [= ->]|by intros ->].
Qed.

Lemma len_load j : len (Json.load j) = if json_sized j then len (Json.load j) else Raise TypeError.
Proof. by destruct j. Qed.

Lemma len_load_sized j : json_sized j = true → ∃ n, len (Json.load j) = Ok n.
Proof. destruct j; try done; intros _; by eexists. Qed.

(** X3: what [load_previous_knowledge] makes of a file. A missing or empty
    file gives the empty Snapshot; a text that is no JSON raises
    [JSONDecodeError]; a document that is no object raises [TypeError]; an
    object without a member "results" raises [KeyError]; of several members
    "results" the last one counts, and it is returned when it is an object,
    an array or a string (so also a value that is no dictionary), while
    [null], a number or a boolean raises [TypeError]. *)
Theorem load_previous_knowledge_of_file (path : Path) (w : world) :
  load_previous_knowledge path w
  = match files w !! path with
    | None | Some FEmpty => Ok (PDict [])
    | Some FGarbage => Raise JSONDecodeError
    | Some (FJson (JObj m)) =>
        match last_member "results" m with
        | None => Raise KeyError
        | Some r => if json_sized r then Ok (Json.load r) else Raise TypeError
        end
    | Some (FJson _) => Raise TypeError
    end.
Proof.
  unfold load_previous_knowledge.
  destruct (files w !! path) as [[|j|]|]; try done.
  cbn [getsize_is_zero json_load_file mbind result_bind].
  destruct j as [| | | | | |m]; try done.
  rewrite load_object_member. destruct (last_member "results" m) as [r|]; [|done].
  cbn [mbind result_bind in_state]. destruct (json_sized r) eqn:Hr.
  - by destruct (len_load_sized r Hr) as [n ->].
  - by destruct r.
Qed.

(** X4: [save_knowledge] followed by [load_previous_knowledge] of the same
    path returns the data that was saved, for every data that has a length
    and that JSON represents as it is. *)
Theorem saved_knowledge_is_loaded_back (path : Path) (data : pyval) (n : Z) (w : world) :
  len data = Ok n →
  json_compatible data = true →
  ∃ w', save_knowledge path data w = Ok w'
        ∧ load_previous_knowledge path w' = Ok data.
Proof.
  intros Hlen Hdata. unfold save_knowledge. rewrite Hlen. cbn [mbind result_bind in_state].
  eexists. split; [reflexivity|].
  unfold load_previous_knowledge. cbn [files]. rewrite lookup_insert_eq.
  cbn [getsize_is_zero json_load_file mbind result_bind].
  rewrite load_dump_results, load_dump by done. cbn [mbind result_bind in_state].
  by rewrite Hlen.
Qed.

Lemma saved_knowledge_is_loaded_back_witness :
  ∃ w', save_knowledge "kb/pull_requests.json" (PDict sample_snapshot)
          {| files := sample_files; saved := [] |} = Ok w'
        ∧ load_previous_knowledge "kb/pull_requests.json" w' = Ok (PDict sample_snapshot).
Proof.
  exact (saved_knowledge_is_loaded_back "kb/pull_requests.json" (PDict sample_snapshot) 1
           {| files := sample_files; saved := [] |} eq_refl eq_refl).
Defined.

(** X5: [save_knowledge] replaces the document of its path, it does not
    add to it. After a save that returns, a load of the path returns what
    JSON makes of the saved data, whatever the file held before, and the call
    is the one more that was made. *)
Theorem save_knowledge_replaces_the_document (path : Path) (data : pyval) (w w' : world) :
  save_knowledge path data w = Ok w' →
  load_previous_knowledge path w' = Ok (Json.load (Json.dump data))
  ∧ saved w' = saved w ++ [(path, data)].
Proof.
  unfold save_knowledge. destruct (len data) as [n|e []] eqn:Hlen; [|done].
  cbn [mbind result_bind in_state]. intros [= <-]. split; [|done].
  unfold load_previous_knowledge. cbn [files]. rewrite lookup_insert_eq.
  cbn [getsize_is_zero json_load_file mbind result_bind].
  rewrite (load_dump_results data
           : getitem (Json.load (JObj [("results", Json.dump data)])) "results" = _).
  cbn [mbind result_bind]. by destruct data.
Qed.

Lemma save_knowledge_replaces_the_document_witness :
  ∃ w', save_knowledge "kb/issues.json" (PDict sample_snapshot)
          {| files := sample_files; saved := [] |} = Ok w'
        ∧ load_previous_knowledge "kb/issues.json" w' = Ok (PDict sample_snapshot).
Proof.
  eexists. split; [reflexivity|].
  exact (proj1 (save_knowledge_replaces_the_document "kb/issues.json" (PDict sample_snapshot)
                  {| files := sample_files; saved := [] |} _ eq_refl)).
Defined.

(** ** A key that is no number *)

Lemma key_int_raises k e : key_int k = Raise e → e = ValueError.
Proof. destruct k as [n|s]; [done|]. cbn. by destruct (Py.int s); intros [= <-]. Qed.

Lemma mapM_key_int_raises ks k :
  k ∈ ks → key_int k = Raise ValueError → mapM key_int ks = Raise ValueError.
Proof.
  intros Hk Hraise. induction ks as [|k0 ks IH]; [by apply elem_of_nil in Hk|].
  cbn [mapM]. destruct (key_int k0) as [n|e []] eqn:Hk0.
  - cbn [mbind result_bind in_state]. fold (mapM key_int ks).
    apply elem_of_cons in Hk as [->|Hk]; [congruence|]. by rewrite IH.
  - cbn [mbind result_bind in_state]. f_equal. by eapply key_int_raises.
Qed.

(** X6: one key of the previous Snapshot that [int] rejects blocks the
    diff: [get_only_new_entities] raises [ValueError] whatever the listing,
    and a cycle of [analyse_issues] or [analyse_pullrequests] that loads such a
    Snapshot raises [ValueError] and leaves the state it started in: nothing
    is written and [save_knowledge] is not called. *)
Theorem unreadable_key_blocks_the_cycle (joinpath : Path → string → Path)
    (project : Repository) (project_knowledge : Path) (w : world)
    (d : list (pykey * pyval)) (s : string) :
  KStr s ∈ dict_keys d →
  Py.int s = None →
  (∀ (E : Type) (HE : Numbered E) (listing : list E),
     get_only_new_entities (PDict d) listing = Raise ValueError)
  ∧ (load_previous_knowledge (joinpath project_knowledge "./issues.json") w = Ok (PDict d) →
     analyse_issues joinpath project project_knowledge w = Raised ValueError w)
  ∧ (load_previous_knowledge (joinpath project_knowledge "./pull_requests.json") w
     = Ok (PDict d) →
     analyse_pullrequests joinpath project project_knowledge w = Raised ValueError w).
Proof.
  intros Hin Hint.
  assert (∀ (E : Type) (HE : Numbered E) (listing : list E),
            get_only_new_entities (PDict d) listing = Raise ValueError) as Hdiff.
  { intros E HE listing. unfold get_only_new_entities. cbn [keys mbind result_bind].
    rewrite (mapM_key_int_raises _ (KStr s)); [done|done|]. cbn. by rewrite Hint. }
  split; [exact Hdiff|]. split; intros Hload.
  - unfold analyse_issues. rewrite Hload. cbn [mbind result_bind in_state]. by rewrite Hdiff.
  - unfold analyse_pullrequests. rewrite Hload. cbn [mbind result_bind in_state]. by rewrite Hdiff.
Qed.

Lemma unreadable_key_blocks_the_cycle_witness :
  analyse_issues sample_joinpath sample_project "kb"
    {| files := sample_files_bad_key; saved := [] |}
  = Raised ValueError {| files := sample_files_bad_key; saved := [] |}.
Proof.
  refine (proj1 (proj2 (unreadable_key_blocks_the_cycle sample_joinpath sample_project "kb"
                          {| files := sample_files_bad_key; saved := [] |}
                          [(KStr "1", PDict []); (KStr (String "028" "7"), PDict [])]
                          (String "028" "7") _ _)) _).
  - right. left.
  - reflexivity.
  - reflexivity.
Defined.

(** ** Storing one entity *)

Lemma dict_set_twice {K V} `{EqDecision K} (k : K) (v v' : V) (d : list (K * V)) :
  dict_set k v' (dict_set k v d) = dict_set k v' d.
Proof.
  induction d as [|[k0 v0] d IH]; cbn [dict_set].
  - by rewrite decide_True.
  - destruct (decide (k = k0)) as [->|Hne]; cbn [dict_set].
    + by rewrite decide_True.
    + by rewrite decide_False, IH.
Qed.

(** X7: [store_issue] leaves the data as it is, whatever it is, for an
    issue that is a pull request. For another issue and a dictionary it
    returns the dictionary with one record under the integer number: the
    record has the seven entries of an issue, its time to close is the
    closing time minus the creation time, it can be looked up under the
    number, every other key keeps its value, and storing the issue a second
    time changes nothing. *)
Theorem store_issue_puts_one_record (issue : Issue) (d : list (pykey * pyval)) :
  (∀ data, issue_pull_request issue ≠ None → store_issue issue data = Ok data)
  ∧ (issue_pull_request issue = None →
     ∃ record d',
       store_issue issue (PDict d) = Ok (PDict d')
       ∧ dict_get (KInt (issue_number issue)) d' = Some record
       ∧ (∀ k, k ≠ KInt (issue_number issue) → dict_get k d' = dict_get k d)
       ∧ keys record = Ok issue_record_keys
       ∧ getitem record "time_to_close"
         = Ok (PFloat (issue_closed_at issue - issue_created_at issue)%float)
       ∧ store_issue issue (PDict d') = Ok (PDict d')).
Proof.
  split.
  - intros data Hpr. unfold store_issue. by destruct (issue_pull_request issue).
  - intros Hnone. unfold store_issue. rewrite Hnone.
    destruct (get_interactions_sum (issue_comments issue)) as (m & -> & _).
    cbn [mbind result_bind setitem]. eexists _, _. split; [reflexivity|].
    split; [apply dict_get_set_eq|]. split.
    { intros k Hk. by apply dict_get_set_ne. }
    split; [reflexivity|]. split; [reflexivity|]. by rewrite dict_set_twice.
Qed.

Lemma store_issue_puts_one_record_witness :
  ∃ record d',
    store_issue (sample_issue 2 None [sample_comment "carol" "hi there"])
      (PDict [(KStr "1", PDict [])]) = Ok (PDict d')
    ∧ dict_get (KInt 2) d' = Some record
    ∧ dict_get (KStr "1") d' = Some (PDict []).
Proof.
  destruct (proj2 (store_issue_puts_one_record
                     (sample_issue 2 None [sample_comment "carol" "hi there"])
                     [(KStr "1", PDict [])]) eq_refl)
    as (record & d' & Hstore & Hget & Hother & _).
  exists record, d'. split; [done|]. split; [done|].
  by rewrite Hother.
Defined.

(** ** The record of a pull request *)

Lemma dict_keys_foldl_set {K V A} `{EqDecision K} (key : A → K) (val : A → V)
    (xs : list A) (acc : list (K * V)) (k : K) :
  k ∈ dict_keys (foldl (λ d x, dict_set (key x) (val x) d) acc xs)
  ↔ k ∈ dict_keys acc ∨ ∃ x, x ∈ xs ∧ k = key x.
Proof.
  revert acc. induction xs as [|x xs IH]; intros acc; cbn [foldl].
  - split; [by left|]. by intros [?|(? & ?%elem_of_nil & _)].
  - rewrite IH, dict_keys_set_elem. split.
    + intros [[->|?]|(y & Hy & ->)]; [|by left|].
      * right. exists x. split; [by left|done].
      * right. exists y. split; [by right|done].
    + intros [?|(y & [->|Hy]%elem_of_cons & ->)]; [by left; right|by left; left|].
      right. by exists y.
Qed.

Lemma dict_keys_foldl_NoDup {K V A} `{EqDecision K} (key : A → K) (val : A → V)
    (xs : list A) (acc : list (K * V)) :
  NoDup (dict_keys acc) →
  NoDup (dict_keys (foldl (λ d x, dict_set (key x) (val x) d) acc xs)).
Proof.
  revert acc. induction xs as [|x xs IH]; intros acc Hacc; [done|].
  cbn [foldl]. by apply IH, dict_keys_set_NoDup.
Qed.

Lemma extract_pullrequest_reviews_fold pull :
  extract_pullrequest_reviews pull
  = foldl (λ d review, dict_set (KInt (review_id review)) (review_record review) d) []
      (pull_reviews pull).
Proof.
  unfold extract_pullrequest_reviews.
  assert (∀ acc, foldl (λ results review,
                          dict_set (KInt (review_id review))
                            (PDict [
                               (KStr "author", PStr (login (review_user review)));
                               (KStr "words_count", PInt (words (review_body review)));
                               (KStr "submitted_at", PFloat (review_submitted_at review));
                               (KStr "state", PStr (review_state review))
                            ]) results) acc (pull_reviews pull)
                 = foldl (λ d review,
                            dict_set (KInt (review_id review)) (review_record review) d)
                     acc (pull_reviews pull)) as Hfold.
  { induction (pull_reviews pull) as [|review reviews IH]; intros acc; [done|].
    cbn [foldl]. rewrite IH. unfold review_record at 2. by rewrite words_pieces. }
  apply Hfold.
Qed.

(** X8: [extract_pullrequest_reviews] keeps one record per review
    identifier, under the integer identifier: the keys are the identifiers of
    the reviews, none twice, and the record of an identifier is the one of
    the last review that has it, with the number of pieces the single spaces
    cut its body into as the word count. *)
Theorem reviews_are_kept_by_identifier (pull : PullRequest) :
  NoDup (dict_keys (extract_pullrequest_reviews pull))
  ∧ (∀ k, k ∈ dict_keys (extract_pullrequest_reviews pull)
          ↔ ∃ review, review ∈ pull_reviews pull ∧ k = KInt (review_id review))
  ∧ (∀ id, dict_get (KInt id) (extract_pullrequest_reviews pull)
           = review_record
               <$> last (filter (λ review, review_id review = id) (pull_reviews pull))).
Proof.
  rewrite extract_pullrequest_reviews_fold. split; [|split].
  - apply (dict_keys_foldl_NoDup (λ review, KInt (review_id review)) review_record).
    constructor.
  - intros k.
    rewrite (dict_keys_foldl_set (λ review, KInt (review_id review)) review_record).
    split; [|by right]. by intros [?%elem_of_nil|?].
  - intros id.
    rewrite (dict_get_foldl_set (λ review, KInt (review_id review)) review_record).
    rewrite (filter_ext_in (λ review, KInt (review_id review) = KInt id)
               (λ review, review_id review = id)).
    + by destruct (last _).
    + intros review _. split; [by intros [= ->]|by intros ->].
Qed.

Lemma review_requests_logins pull :
  extract_pullrequest_review_requests pull = login <$> (pull_review_requests pull).1.
Proof.
  unfold extract_pullrequest_review_requests.
  assert (∀ (users : list NamedUser) (acc : list string),
            foldl (λ extracted user, extracted ++ [login user]) acc users
            = acc ++ (login <$> users)) as Hfold.
  { induction users as [|user users IH]; intros acc; cbn [foldl].
    - by rewrite app_nil_r.
    - rewrite IH, fmap_cons. by rewrite <-app_assoc. }
  by rewrite Hfold.
Qed.

Lemma store_pullrequest_record pull size :
  get_labeled_size (pull_labels pull) = Ok size →
  ∃ record,
    (∀ d, store_pullrequest pull (PDict d)
          = Ok (PDict (dict_set (KStr (Py.str (pull_number pull))) record d)))
    ∧ getitem record "size" = Ok (option_value PStr size)
    ∧ getitem record "referenced_issues"
      = Ok (PList (PStr <$> references_of_comments keyword_without_colons
                              (comment_body <$> pull_issue_comments pull)))
    ∧ getitem record "reviews" = Ok (PDict (extract_pullrequest_reviews pull))
    ∧ getitem record "requested_reviewers"
      = Ok (PList (PStr <$> (login <$> (pull_review_requests pull).1)))
    ∧ getitem record "merged_at" = Ok (option_value PFloat (pull_merged_at pull)).
Proof.
  intros Hsize. unfold store_pullrequest. rewrite Hsize. cbn [mbind result_bind in_state].
  rewrite get_referenced_issues_references. cbn [mbind result_bind in_state].
  destruct (get_interactions_sum (pull_issue_comments pull)) as (m & -> & _).
  cbn [mbind result_bind setitem]. rewrite review_requests_logins.
  eexists. split; [intros d; reflexivity|]. by repeat split.
Qed.

(** X9: [store_pullrequest] returns exactly when [get_labeled_size] does.
    It then returns the dictionary with one record under the decimal text of
    the number: the record can be looked up there, every other key keeps its
    value, storing the pull request a second time changes nothing, and the
    record holds the size, the references the comments give, the logins of
    the requested users in their order (requested teams are left out) and
    [None] as merge time of a pull request that was not merged. *)
Theorem store_pullrequest_puts_one_record (pull : PullRequest) (d : list (pykey * pyval)) :
  (∀ e, get_labeled_size (pull_labels pull) = Raise e →
        store_pullrequest pull (PDict d) = Raise e)
  ∧ (∀ size, get_labeled_size (pull_labels pull) = Ok size →
     ∃ record d',
       store_pullrequest pull (PDict d) = Ok (PDict d')
       ∧ dict_get (KStr (Py.str (pull_number pull))) d' = Some record
       ∧ (∀ k, k ≠ KStr (Py.str (pull_number pull)) → dict_get k d' = dict_get k d)
       ∧ store_pullrequest pull (PDict d') = Ok (PDict d')
       ∧ getitem record "size" = Ok (option_value PStr size)
       ∧ getitem record "referenced_issues"
         = Ok (PList (PStr <$> references_of_comments keyword_without_colons
                                 (comment_body <$> pull_issue_comments pull)))
       ∧ getitem record "requested_reviewers"
         = Ok (PList (PStr <$> (login <$> (pull_review_requests pull).1)))
       ∧ (pull_merged_at pull = None → getitem record "merged_at" = Ok PNone)).
Proof.
  split.
  - intros e He. pose proof (store_pullrequest_outcome pull d) as Hout.
    by rewrite He in Hout.
  - intros size Hsize.
    destruct (store_pullrequest_record pull size Hsize)
      as (record & Hstore & Hsz & Hrefs & _ & Hreq & Hmerged).
    exists record, (dict_set (KStr (Py.str (pull_number pull))) record d).
    split; [done|]. split; [apply dict_get_set_eq|]. split.
    { intros k Hk. by apply dict_get_set_ne. }
    split; [by rewrite Hstore, dict_set_twice|].
    split; [done|]. split; [done|]. split; [done|].
    intros Hnone. by rewrite Hmerged, Hnone.
Qed.

Lemma store_pullrequest_puts_one_record_witness :
  ∃ record d',
    store_pullrequest sample_reviewed_pull (PDict [(KStr "3", PDict [])]) = Ok (PDict d')
    ∧ dict_get (KStr "5") d' = Some record
    ∧ dict_get (KStr "3") d' = Some (PDict [])
    ∧ getitem record "size" = Ok (PStr "XS")
    ∧ getitem record "requested_reviewers" = Ok (PList [PStr "erin"])
    ∧ getitem record "merged_at" = Ok PNone.
Proof.
  destruct (proj2 (store_pullrequest_puts_one_record sample_reviewed_pull
                     [(KStr "3", PDict [])]) (Some "XS") eq_refl)
    as (record & d' & Hstore & Hget & Hother & _ & Hsize & _ & Hreq & Hmerged).
  exists record, d'. split; [done|]. split; [done|].
  split; [by rewrite Hother|]. split; [done|]. split; [done|]. by apply Hmerged.
Defined.

Lemma getitem_inv v name x :
  getitem v name = Ok x → ∃ d, v = PDict d ∧ dict_get (KStr name) d = Some x.
Proof.
  destruct v as [| | | | | |d]; try done. cbn [getitem].
  destruct (dict_get (KStr name) d) as [y|] eqn:Hget; [|done].
  intros [= <-]. by exists d.
Qed.

Lemma json_compatible_str_keyed v : json_compatible v = true → str_keyed v = true.
Proof.
  induction v as [| | | | |l IH|d IH] using pyval_nested_ind; try done.
  - cbn [json_compatible str_keyed]. induction IH as [|v l Hv _ IHl]; [done|].
    cbn [forallb]. intros [Hv' Hl]%andb_true_iff. by rewrite Hv, IHl.
  - cbn [json_compatible str_keyed]. intros [_ Hd]%andb_true_iff.
    induction IH as [|[k v] d Hv _ IHd]; [done|].
    cbn [forallb fst snd] in *. apply andb_true_iff in Hd as [[Hk Hv']%andb_true_iff Hd].
    by rewrite Hk, Hv, IHd.
Qed.

(** X10: the record of a pull request with at least one review is not one
    JSON represents as it is, because its reviews stand under integer keys: a
    Snapshot that holds such a record is saved, and what is loaded back from
    the file is not the Snapshot that was saved. *)
Theorem reviewed_pull_is_not_loaded_back (pull : PullRequest) (d : list (pykey * pyval))
    (res : pyval) (path : Path) (w w' : world) :
  pull_reviews pull ≠ [] →
  store_pullrequest pull (PDict d) = Ok res →
  save_knowledge path res w = Ok w' →
  json_compatible res = false
  ∧ ∃ reloaded, load_previous_knowledge path w' = Ok reloaded ∧ reloaded ≠ res.
Proof.
  intros Hreviews Hstore Hsave.
  assert (∃ size, get_labeled_size (pull_labels pull) = Ok size) as [size Hsize].
  { pose proof (store_pullrequest_outcome pull d) as Hout.
    destruct (get_labeled_size (pull_labels pull)) as [size|e []]; [by exists size|congruence]. }
  destruct (store_pullrequest_record pull size Hsize) as (record & Hrec & _ & _ & Hrev & _).
  rewrite Hrec in Hstore. injection Hstore as <-.
  assert (str_keyed (PDict (dict_set (KStr (Py.str (pull_number pull))) record d)) = false)
    as Hnot.
  { destruct (str_keyed (PDict _)) eqn:Hstr; [|done]. exfalso.
    destruct (str_keyed_dict_get _ _ _ Hstr (dict_get_set_eq _ record d)) as [_ Hrecord].
    destruct (getitem_inv _ _ _ Hrev) as (fields & -> & Hfield).
    destruct (str_keyed_dict_get _ _ _ Hrecord Hfield) as [_ Hrevs].
    destruct (pull_reviews pull) as [|review reviews] eqn:Hrs; [done|].
    assert (KInt (review_id review) ∈ dict_keys (extract_pullrequest_reviews pull)) as Hin.
    { rewrite extract_pullrequest_reviews_fold.
      apply (dict_keys_foldl_set (λ review, KInt (review_id review)) review_record).
      right. exists review. split; [|done]. rewrite Hrs. by left. }
    by pose proof (str_keyed_keys _ _ Hrevs Hin). }
  split.
  - destruct (json_compatible (PDict _)) eqn:Hjc; [|done].
    apply json_compatible_str_keyed in Hjc. congruence.
  - destruct (save_then_load path (dict_set (KStr (Py.str (pull_number pull))) record d) w)
      as (w1 & Hsave1 & _ & Hload).
    rewrite Hsave1 in Hsave. injection Hsave as <-.
    eexists. split; [exact Hload|]. intros Heq.
    pose proof (load_dump_str_keyed
                  (PDict (dict_set (KStr (Py.str (pull_number pull))) record d))) as Hstr.
    rewrite Heq in Hstr. congruence.
Qed.

Lemma reviewed_pull_is_not_loaded_back_witness :
  ∃ res w' reloaded,
    store_pullrequest sample_reviewed_pull (PDict []) = Ok res
    ∧ save_knowledge "kb/pull_requests.json" res {| files := ∅; saved := [] |} = Ok w'
    ∧ load_previous_knowledge "kb/pull_requests.json" w' = Ok reloaded
    ∧ reloaded ≠ res.
Proof.
  destruct (store_pullrequest sample_reviewed_pull (PDict [])) as [res|] eqn:Hstore;
    [|by vm_compute in Hstore].
  destruct (save_knowledge "kb/pull_requests.json" res {| files := ∅; saved := [] |})
    as [w'|] eqn:Hsave.
  2: { vm_compute in Hstore. injection Hstore as <-. by vm_compute in Hsave. }
  destruct (reviewed_pull_is_not_loaded_back sample_reviewed_pull [] res
              "kb/pull_requests.json" {| files := ∅; saved := [] |} w')
    as (_ & reloaded & Hload & Hne); [discriminate|done|done|].
  by exists res, w', reloaded.
Defined.

(** ** What a cycle saves and what stays known *)

Lemma analyse_pullrequests_cases joinpath project project_knowledge w prev new_pulls w' :
  let path := joinpath project_knowledge "./pull_requests.json" in
  load_previous_knowledge path w = Ok prev →
  get_only_new_entities prev (closed_pulls project) = Ok new_pulls →
  analyse_pullrequests joinpath project project_knowledge w = Ok w' →
  ∃ d ids,
    prev = PDict d
    ∧ Forall2 (λ k n, key_int k = Ok n) (dict_keys d) ids
    ∧ new_pulls = filter (λ x, number x ∉ ids) (closed_pulls project)
    ∧ ((new_pulls = [] ∧ w' = w)
       ∨ (new_pulls ≠ []
          ∧ ∃ d', save_knowledge path (PDict d') w = Ok w'
                  ∧ ∀ k, k ∈ dict_keys d'
                         ↔ k ∈ dict_keys d
                           ∨ ∃ pull, pull ∈ new_pulls
                                     ∧ k = KStr (Py.str (pull_number pull)))).
Proof.
  intros path Hload Hnew Hrun. unfold analyse_pullrequests in Hrun. fold path in Hrun.
  rewrite Hload in Hrun. cbn [mbind result_bind in_state] in Hrun.
  rewrite Hnew in Hrun. cbn [mbind result_bind in_state] in Hrun.
  destruct (get_only_new_entities_inv _ _ _ Hnew) as (d & ids & -> & Hids & Hres).
  exists d, ids. do 3 (split; [done|]).
  destruct (decide (length new_pulls = 0%nat)) as [Hlen|Hlen].
  - left. injection Hrun as <-. split; [|done]. by destruct new_pulls.
  - right. split; [by intros ->|].
    destruct (for_each new_pulls _ (PDict d)) as [merged|] eqn:Hstore; [|done].
    cbn [mbind result_bind in_state] in Hrun.
    destruct (for_each_store_pullrequest _ _ _ Hstore) as (d' & -> & _ & Hkeys).
    by exists d'.
Qed.

Lemma save_knowledge_dict path d w w' :
  save_knowledge path (PDict d) w = Ok w' →
  saved w' = saved w ++ [(path, PDict d)]
  ∧ load_previous_knowledge path w' = Ok (Json.load (Json.dump (PDict d)))
  ∧ ∀ other, other ≠ path →
      load_previous_knowledge other w' = load_previous_knowledge other w.
Proof.
  intros Hsave. destruct (save_then_load path d w) as (w1 & Hsave1 & Hsaved & Hload).
  rewrite Hsave1 in Hsave. injection Hsave as <-. split; [done|]. split; [done|].
  intros other Hne. injection Hsave1 as <-.
  unfold load_previous_knowledge. cbn [files]. by rewrite lookup_insert_ne.
Qed.

(** X11: in a cycle with at least one new entity that returns, the
    Snapshot handed to [save_knowledge] has exactly the keys of the loaded
    Snapshot and one key for every new entity, the integer number of an issue
    and the decimal text of the number of a pull request: no new entity is
    left out and no other key is added. A cycle of [analyse_issues] with a new
    issue always returns. *)
Theorem saved_snapshot_has_the_new_entities (joinpath : Path → string → Path)
    (project : Repository) (project_knowledge : Path) (w : world) (prev : pyval) :
  (∀ new_issues,
     load_previous_knowledge (joinpath project_knowledge "./issues.json") w = Ok prev →
     get_only_new_entities prev
       (filter (λ issue, issue_pull_request issue = None) (closed_issues project))
     = Ok new_issues →
     new_issues ≠ [] →
     ∃ d d' w',
       prev = PDict d
       ∧ analyse_issues joinpath project project_knowledge w = Ok w'
       ∧ saved w' = saved w ++ [(joinpath project_knowledge "./issues.json", PDict d')]
       ∧ ∀ k, k ∈ dict_keys d'
              ↔ k ∈ dict_keys d
                ∨ ∃ issue, issue ∈ new_issues ∧ k = KInt (issue_number issue))
  ∧ (∀ new_pulls w',
     load_previous_knowledge (joinpath project_knowledge "./pull_requests.json") w = Ok prev →
     get_only_new_entities prev (closed_pulls project) = Ok new_pulls →
     new_pulls ≠ [] →
     analyse_pullrequests joinpath project project_knowledge w = Ok w' →
     ∃ d d',
       prev = PDict d
       ∧ saved w' = saved w ++ [(joinpath project_knowledge "./pull_requests.json", PDict d')]
       ∧ ∀ k, k ∈ dict_keys d'
              ↔ k ∈ dict_keys d
                ∨ ∃ pull, pull ∈ new_pulls ∧ k = KStr (Py.str (pull_number pull))).
Proof.
  split.
  - intros new_issues Hload Hnew Hne.
    destruct (analyse_issues_cases joinpath project project_knowledge w _ _ Hload Hnew)
      as (d & d' & ids & -> & _ & _ & _ & Hkeys & Heq).
    rewrite decide_False in Heq by (by destruct new_issues).
    destruct (save_then_load (joinpath project_knowledge "./issues.json") d' w)
      as (w' & Hsave & Hsaved & _).
    exists d, d', w'. split; [done|]. split; [by rewrite Heq|]. by split.
  - intros new_pulls w' Hload Hnew Hne Hrun.
    destruct (analyse_pullrequests_cases joinpath project project_knowledge w _ _ _
                Hload Hnew Hrun)
      as (d & ids & -> & _ & _ & [[? _]|(_ & d' & Hsave & Hkeys)]); [done|].
    exists d, d'. split; [done|]. split; [|done].
    by destruct (save_knowledge_dict _ _ _ _ Hsave) as [? _].
Qed.

Lemma saved_snapshot_has_the_new_entities_witness :
  ∃ d' w',
    analyse_issues sample_joinpath sample_project "kb"
      {| files := sample_files; saved := [] |} = Ok w'
    ∧ saved w' = [("kb/issues.json", PDict d')]
    ∧ KInt 2 ∈ dict_keys d' ∧ KStr "1" ∈ dict_keys d'.
Proof.
  destruct (proj1 (saved_snapshot_has_the_new_entities sample_joinpath sample_project "kb"
                     {| files := sample_files; saved := [] |}
                     (PDict [(KStr "1", PDict [(KStr "labels", PList [])])]))
              [sample_issue 2 None []] eq_refl eq_refl)
    as (d & d' & w' & Hprev & Hrun & Hsaved & Hkeys); [discriminate|].
  injection Hprev as <-. exists d', w'. split; [done|]. split; [done|]. split.
  - apply Hkeys. right. exists (sample_issue 2 None []). split; [by left|done].
  - apply Hkeys. left. by left.
Defined.

Lemma filter_nil_none {A} (P : A → Prop) `{∀ x, Decision (P x)} (l : list A) :
  filter P l = [] → ∀ x, x ∈ l → ¬ P x.
Proof.
  intros Hnil x Hx HP.
  assert (x ∈ filter P l) as Hin by (by apply list_elem_of_filter).
  rewrite Hnil in Hin. by apply elem_of_nil in Hin.
Qed.

Lemma knows_ids {E} `{Numbered E} path (listing : list E) w d :
  load_previous_knowledge path w = Ok (PDict d) →
  knows path listing w →
  ∃ ids, Forall2 (λ k n, key_int k = Ok n) (dict_keys d) ids
         ∧ ∀ x, x ∈ listing → number x ∈ ids.
Proof.
  intros Hload (data & Hload' & Hnone). rewrite Hload in Hload'. injection Hload' as <-.
  destruct (get_only_new_entities_inv _ _ _ Hnone) as (d0 & ids & [= <-] & Hids & Hres).
  exists ids. split; [done|]. intros x Hx.
  destruct (decide (number x ∈ ids)) as [|Hn]; [done|].
  by destruct (filter_nil_none _ _ (eq_sym Hres) x Hx).
Qed.

(** What is read back after new keys were added knows what was known. *)
Lemma reload_keeps_known {E} `{Numbered E} (key_of : Z → pykey) (listing : list E)
    (d d' : list (pykey * pyval)) ids :
  (∀ n, Json.key_text (key_of n) = Py.str n) →
  str_keyed (PDict d) = true →
  Forall2 (λ k n, key_int k = Ok n) (dict_keys d) ids →
  (∀ k, k ∈ dict_keys d → k ∈ dict_keys d') →
  (∀ k, k ∈ dict_keys d' → k ∈ dict_keys d ∨ ∃ n, k = key_of n) →
  (∀ x, x ∈ listing → number x ∈ ids) →
  get_only_new_entities (Json.load (Json.dump (PDict d'))) listing = Ok [].
Proof.
  intros Hkey Hstr Hids Hold Hnew Hall.
  destruct (load_dump_is_dict d') as [r Hr]. rewrite Hr.
  pose proof (λ k, keys_load_dump d' r k Hr) as Hkr.
  assert (∀ k0, k0 ∈ dict_keys d → KStr (Json.key_text k0) = k0) as Htext.
  { intros k0 Hk0. pose proof (str_keyed_keys _ _ Hstr Hk0). by destruct k0. }
  assert (∃ ids', Forall2 (λ k n, key_int k = Ok n) (dict_keys r) ids') as [ids' Hids'].
  { apply key_int_total, Forall_forall. intros k (k0 & Hk0 & ->)%Hkr.
    apply Hnew in Hk0 as [Hk0|(n & ->)].
    - rewrite (Htext _ Hk0). clear -Hids Hk0.
      induction Hids as [|k n ks ids Hk _ IH]; [by apply elem_of_nil in Hk0|].
      apply elem_of_cons in Hk0 as [->|Hk0]; [by exists n|by apply IH].
    - exists n. rewrite Hkey. cbn [key_int]. by rewrite int_str. }
  rewrite (get_only_new_entities_ids _ _ _ Hids'). f_equal.
  apply filter_none. intros x Hx Hn. apply Hn. clear Hn.
  destruct (key_int_elem_inv _ _ _ Hids (Hall x Hx)) as (k & Hk & Hkn).
  apply (key_int_elem _ _ k _ Hids'); [|done].
  apply Hkr. exists k. split; [by apply Hold|by rewrite (Htext _ Hk)].
Qed.

Lemma knows_is_kept {E} `{Numbered E} (joinpath : Path → string → Path)
    (project : Repository) (project_knowledge : Path) (path : Path) (listing : list E)
    (w w' : world) :
  knows path listing w →
  (analyse_issues joinpath project project_knowledge w = Ok w' → knows path listing w')
  ∧ (analyse_pullrequests joinpath project project_knowledge w = Ok w' →
     knows path listing w').
Proof.
  intros Hknows. split; intros Hrun.
  - destruct (load_previous_knowledge (joinpath project_knowledge "./issues.json") w)
      as [prev|] eqn:Hload.
    2: { unfold analyse_issues in Hrun. by rewrite Hload in Hrun. }
    destruct (get_only_new_entities prev
               (filter (λ issue, issue_pull_request issue = None) (closed_issues project)))
      as [new_issues|] eqn:Hnew.
    2: { unfold analyse_issues in Hrun. rewrite Hload in Hrun.
         cbn [mbind result_bind in_state] in Hrun. by rewrite Hnew in Hrun. }
    destruct (analyse_issues_cases joinpath project project_knowledge w _ _ Hload Hnew)
      as (d & d' & ids & -> & _ & _ & _ & Hkeys & Heq).
    rewrite Heq in Hrun. destruct (decide (length new_issues = 0%nat)).
    { by injection Hrun as <-. }
    destruct (save_knowledge_dict _ _ _ _ Hrun) as (_ & Hreload & Hother).
    destruct (decide (path = joinpath project_knowledge "./issues.json")) as [->|Hne].
    + destruct (knows_ids _ _ _ _ Hload Hknows) as (ids0 & Hids0 & Hall).
      eexists. split; [exact Hreload|].
      apply (reload_keeps_known KInt listing d d' ids0); try done.
      * by eapply load_previous_knowledge_str_keyed.
      * intros k Hk. apply Hkeys. by left.
      * intros k [?|(i & _ & ->)]%Hkeys; [by left|]. right. by eexists.
    + destruct Hknows as (data & Hl & Hd). exists data. split; [|done].
      by rewrite Hother.
  - destruct (load_previous_knowledge (joinpath project_knowledge "./pull_requests.json") w)
      as [prev|] eqn:Hload.
    2: { unfold analyse_pullrequests in Hrun. by rewrite Hload in Hrun. }
    destruct (get_only_new_entities prev (closed_pulls project)) as [new_pulls|] eqn:Hnew.
    2: { unfold analyse_pullrequests in Hrun. rewrite Hload in Hrun.
         cbn [mbind result_bind in_state] in Hrun. by rewrite Hnew in Hrun. }
    destruct (analyse_pullrequests_cases joinpath project project_knowledge w _ _ _
                Hload Hnew Hrun)
      as (d & ids & -> & _ & _ & [[_ ->]|(_ & d' & Hsave & Hkeys)]); [done|].
    destruct (save_knowledge_dict _ _ _ _ Hsave) as (_ & Hreload & Hother).
    destruct (decide (path = joinpath project_knowledge "./pull_requests.json"))
      as [->|Hne].
    + destruct (knows_ids _ _ _ _ Hload Hknows) as (ids0 & Hids0 & Hall).
      eexists. split; [exact Hreload|].
      apply (reload_keeps_known (λ n, KStr (Py.str n)) listing d d' ids0); try done.
      * by eapply load_previous_knowledge_str_keyed.
      * intros k Hk. apply Hkeys. by left.
      * intros k [?|(p & _ & ->)]%Hkeys; [by left|]. right. by eexists.
    + destruct Hknows as (data & Hl & Hd). exists data. split; [|done].
      by rewrite Hother.
Qed.

(** X12: knowledge is kept. When the file of a path holds a Snapshot in
    which no entity of a listing is new, this is still so after any cycle of
    [analyse_issues] or [analyse_pullrequests] that returns, on any project
    and directory, also one that writes that very file: an entity that is
    known is never taken for new again. *)
Theorem knowledge_is_kept {E} `{Numbered E} (joinpath : Path → string → Path)
    (project : Repository) (project_knowledge : Path) (path : Path) (listing : list E)
    (w w' : world) :
  knows path listing w →
  (analyse_issues joinpath project project_knowledge w = Ok w' → knows path listing w')
  ∧ (analyse_pullrequests joinpath project project_knowledge w = Ok w' →
     knows path listing w').
Proof. apply knows_is_kept. Qed.

Lemma knowledge_is_kept_witness :
  ∃ w', analyse_issues sample_joinpath sample_project "kb"
          {| files := sample_files; saved := [] |} = Ok w'
        ∧ knows "kb/issues.json" [sample_issue 1 None []] w'.
Proof.
  destruct (analyse_issues sample_joinpath sample_project "kb"
              {| files := sample_files; saved := [] |}) as [w'|] eqn:Hrun;
    [|by vm_compute in Hrun].
  exists w'. split; [done|].
  refine (proj1 (knowledge_is_kept sample_joinpath sample_project "kb" "kb/issues.json"
                   [sample_issue 1 None []] {| files := sample_files; saved := [] |} w' _)
            Hrun).
  eexists. split; reflexivity.
Defined.

(** ** The two backends of the storage *)

Section storage_more.
Variable cwd : Path.
Variable joinpath : Path → string → Path.
Variable relpath : Path → string.

(** X13: a save reaches one backend only. After a local save the object
    store is as it was, so every remote load returns what it returned
    before; after a remote save the files are as they were, so every local
    load returns what it returned before, and so does the remote load of
    every path with another object key. A Snapshot saved on one backend is
    not found on the other. *)
Theorem save_reaches_one_backend (self other : storage.KnowledgeStorage)
    (file_path : Path) (data : pyval) (w w' : storage.world) :
  storage.save_knowledge relpath self file_path data w = Ok w' →
  (storage.is_local self = true →
   storage.ceph w' = storage.ceph w
   ∧ (∀ q, storage.load_remotely relpath other q w' = storage.load_remotely relpath other q w))
  ∧ (storage.is_local self = false →
     storage.files w' = storage.files w
     ∧ (∀ q, storage.load_locally q w' = storage.load_locally q w)
     ∧ (∀ q, storage.ceph_filename relpath q ≠ storage.ceph_filename relpath file_path →
             storage.load_remotely relpath other q w'
             = storage.load_remotely relpath other q w)).
Proof.
  unfold storage.save_knowledge. destruct (len data); [|done]. cbn [mbind result_bind in_state].
  destruct self as [[|]]; cbn [storage.is_local negb]; intros [= <-];
    (split; intros Hl; [|]; try done).
  - split; [done|]. split; [done|]. intros q Hq.
    unfold storage.load_remotely, storage.retrieve_document, storage.store_document.
    cbn [storage.ceph]. by rewrite lookup_insert_ne.
Qed.

Lemma prefix_dot_slash s : String.prefix "./" (String "." (String "/" s)) = true.
Proof.
  cbn [String.prefix]. destruct (ascii_dec "." "."); [|done].
  destruct (ascii_dec "/" "/"); [|done]. by destruct s.
Qed.

Lemma prefix_dot_dot s : String.prefix "./" (String "." (String "." s)) = false.
Proof.
  cbn [String.prefix]. destruct (ascii_dec "." "."); [|done].
  by destruct (ascii_dec "/" ".").
Qed.

Lemma replace_parent_step s :
  Py.replace "./" "" ("../" +:+ s) = "." +:+ Py.replace "./" "" s.
Proof.
  change ("../" +:+ s) with (String "." (String "." (String "/" s))).
  change ("." +:+ Py.replace "./" "" s) with (String "." (Py.replace "./" "" s)).
  unfold Py.replace. cbn [Py.replace_from]. rewrite prefix_dot_dot, prefix_dot_slash.
  reflexivity.
Qed.

Lemma replace_dot_name s :
  String.prefix "/" s = false →
  Py.replace "./" "" ("." +:+ s) = "." +:+ Py.replace "./" "" s.
Proof.
  intros Hs. change ("." +:+ s) with (String "." s).
  change ("." +:+ Py.replace "./" "" s) with (String "." (Py.replace "./" "" s)).
  unfold Py.replace. cbn [Py.replace_from].
  replace (String.prefix "./" (String "." s)) with (String.prefix "/" s); [by rewrite Hs|].
  destruct s as [|c s]; [done|]. cbn [String.prefix]. by destruct (ascii_dec "." ".").
Qed.

(** X14: the object store is keyed by the relative path with every "./"
    removed, not by the path. A relative path that starts with a parent step
    "../" loses it and keeps a dot: it gets the key of the sibling whose name
    starts with that dot. What is saved remotely under one path is what a
    remote load of any path with the same key returns. *)
Theorem object_key_forgets_parent_step (self : storage.KnowledgeStorage)
    (p q : Path) (s : string) (d : list (pykey * pyval)) (w w' : storage.world) :
  relpath p = "../" +:+ s →
  relpath q = "." +:+ s →
  String.prefix "/" s = false →
  storage.is_local self = false →
  json_compatible (PDict d) = true →
  storage.save_knowledge relpath self p (PDict d) w = Ok w' →
  storage.ceph_filename relpath p = "." +:+ Py.replace "./" "" s
  ∧ storage.ceph_filename relpath q = storage.ceph_filename relpath p
  ∧ storage.load_remotely relpath self q w' = Ok (PDict d).
Proof.
  intros Hp Hq Hs Hremote Hd Hsave.
  assert (storage.ceph_filename relpath p = "." +:+ Py.replace "./" "" s) as Hkp.
  { unfold storage.ceph_filename. by rewrite Hp, replace_parent_step. }
  assert (storage.ceph_filename relpath q = storage.ceph_filename relpath p) as Hkq.
  { rewrite Hkp. unfold storage.ceph_filename. by rewrite Hq, replace_dot_name. }
  split; [done|]. split; [done|].
  destruct (storage_save_then_load relpath self p d w Hd) as (w1 & Hsave1 & Hload).
  rewrite Hsave1 in Hsave. injection Hsave as <-. rewrite Hremote in Hload.
  unfold storage.load_remotely in *. by rewrite Hkq.
Qed.

(** X15: a knowledge type that is neither "Issue" nor "PullRequest" makes
    [load_previous_knowledge] raise [KeyError], on both backends, also when
    the path is given and the Snapshot is there. *)
Theorem unknown_knowledge_type_raises (self : storage.KnowledgeStorage)
    (project_name : string) (file_path : option Path) (knowledge_type : string)
    (w : storage.world) :
  knowledge_type ≠ "Issue" →
  knowledge_type ≠ "PullRequest" →
  storage.load_previous_knowledge cwd joinpath relpath self project_name file_path
    knowledge_type w = Raise KeyError.
Proof.
  intros Hi Hp. unfold storage.load_previous_knowledge, storage._FILENAME_ENTITY.
  cbn [dict_get]. by rewrite !decide_False.
Qed.

(** X16: on the local backend the storage class and the script read and
    write the same files, with two differences. The loads return the same
    result or raise the same exception, for a missing file and for every
    content but one: where the last member "results" of the document is
    [null], the script raises [TypeError] and the class returns the empty
    Snapshot. The saves of data that has a length return and leave the same
    files; for data that has none both raise the same exception, the class
    before it writes anything, the script with the file written. *)
Theorem local_storage_agrees_with_script (self : storage.KnowledgeStorage)
    (project_name knowledge_type : string) (file_path : Path)
    (sw : storage.world) (bw : create_bot_knowledge.world) :
  storage.is_local self = true →
  knowledge_type ∈ ["Issue"; "PullRequest"] →
  storage.files sw = files bw →
  let by_class := storage.load_previous_knowledge cwd joinpath relpath self project_name
                    (Some file_path) knowledge_type sw in
  let by_script := load_previous_knowledge file_path bw in
  (files bw !! file_path = None → by_class = by_script)
  ∧ (∀ c, files bw !! file_path = Some c → results_null c = false → by_class = by_script)
  ∧ (∀ c, files bw !! file_path = Some c → results_null c = true →
          by_script = Raise TypeError ∧ by_class = Ok (PDict []))
  ∧ (∀ data n, len data = Ok n →
       ∃ sw' bw',
         storage.save_knowledge relpath self file_path data sw = Ok sw'
         ∧ save_knowledge file_path data bw = Ok bw'
         ∧ storage.files sw' = files bw')
  ∧ (∀ data e, len data = Raise e →
       storage.save_knowledge relpath self file_path data sw = Raised e sw
       ∧ ∃ bw',
           save_knowledge file_path data bw = Raised e bw'
           ∧ files bw' !! file_path
             = Some (FJson (Json.dump (PDict [(KStr "results", data)])))).
Proof.
  intros Hlocal [filename Hf]%filename_entity Hfiles by_class by_script.
  subst by_class by_script.
  unfold storage.load_previous_knowledge, storage.load_locally, load_previous_knowledge.
  rewrite Hf, Hlocal, Hfiles. cbn [or_raise mbind result_bind negb].
  split; [by intros ->|]. split; [|split; [|split]].
  - intros c -> Hnull. destruct c as [|j|]; try done.
    cbn [getsize_is_zero json_load_file mbind result_bind].
    destruct j as [| | | | | |m]; try done.
    rewrite load_object_member. cbn [results_null] in Hnull.
    destruct (last_member "results" m) as [r|]; [|done].
    cbn [mbind result_bind in_state]. by destruct r.
  - intros c -> Hnull. destruct c as [|j|]; try done.
    cbn [getsize_is_zero json_load_file mbind result_bind].
    destruct j as [| | | | | |m]; try done.
    rewrite load_object_member. cbn [results_null] in Hnull.
    destruct (last_member "results" m) as [r|]; [|done].
    cbn [mbind result_bind in_state]. by destruct r.
  - intros data n Hlen. unfold storage.save_knowledge, save_knowledge.
    rewrite Hlocal, Hlen. cbn [mbind result_bind in_state negb].
    eexists _, _. split; [done|]. split; [done|].
    cbn [storage.files files]. by rewrite Hfiles.
  - intros data e Hlen. unfold storage.save_knowledge, save_knowledge.
    rewrite Hlen. cbn [mbind result_bind in_state]. split; [done|].
    eexists. split; [done|]. cbn [files]. by rewrite lookup_insert_eq.
Qed.
End storage_more.

Lemma save_reaches_one_backend_witness :
  ∃ w', storage.save_knowledge sample_relpath {| storage.is_local := true |}
          "kb/issues.json" (PDict sample_snapshot)
          {| storage.files := ∅; storage.ceph := ∅ |} = Ok w'
        ∧ storage.load_previous_knowledge "" sample_joinpath sample_relpath
            {| storage.is_local := false |} "org/repo" (Some "kb/issues.json") "Issue" w'
          = Ok (PDict []).
Proof.
  eexists. split; [reflexivity|].
  unfold storage.load_previous_knowledge. cbn [dict_get storage._FILENAME_ENTITY].
  rewrite decide_True by done. cbn [or_raise mbind result_bind storage.is_local negb].
  rewrite (proj2 (proj1 (save_reaches_one_backend sample_relpath
                                  {| storage.is_local := true |}
                                  {| storage.is_local := false |}
                                  "kb/issues.json" (PDict sample_snapshot)
                           {| storage.files := ∅; storage.ceph := ∅ |} _ eq_refl)
                    eq_refl)).
  reflexivity.
Defined.

Lemma object_key_forgets_parent_step_witness :
  ∃ w', storage.save_knowledge sample_relpath {| storage.is_local := false |}
          "../kb/issues.json" (PDict sample_snapshot)
          {| storage.files := ∅; storage.ceph := ∅ |} = Ok w'
        ∧ storage.load_remotely sample_relpath {| storage.is_local := false |}
            ".kb/issues.json" w' = Ok (PDict sample_snapshot).
Proof.
  eexists. split; [reflexivity|].
  refine (proj2 (proj2 (object_key_forgets_parent_step sample_relpath
                          {| storage.is_local := false |}
                          "../kb/issues.json" ".kb/issues.json" "kb/issues.json"
                          sample_snapshot {| storage.files := ∅; storage.ceph := ∅ |} _
                          eq_refl eq_refl eq_refl eq_refl eq_refl eq_refl))).
Defined.

Lemma unknown_knowledge_type_raises_witness :
  storage.load_previous_knowledge "" sample_joinpath sample_relpath
    {| storage.is_local := true |} "org/repo" (Some "kb/issues.json") "issue"
    {| storage.files := sample_files; storage.ceph := ∅ |}
  = Raise KeyError.
Proof.
  apply (unknown_knowledge_type_raises "" sample_joinpath sample_relpath); discriminate.
Defined.

Lemma local_storage_agrees_with_script_witness :
  load_previous_knowledge "kb/issues.json"
    {| files := {[ "kb/issues.json" := FJson (JObj [("results", JNull)]) ]}; saved := [] |}
  = Raise TypeError
  ∧ storage.load_previous_knowledge "" sample_joinpath sample_relpath
      {| storage.is_local := true |} "org/repo" (Some "kb/issues.json") "Issue"
      {| storage.files := {[ "kb/issues.json" := FJson (JObj [("results", JNull)]) ]};
         storage.ceph := ∅ |}
    = Ok (PDict [])
  ∧ storage.save_knowledge sample_relpath {| storage.is_local := true |}
      "kb/issues.json" (PInt 1)
      {| storage.files := {[ "kb/issues.json" := FJson (JObj [("results", JNull)]) ]};
         storage.ceph := ∅ |}
    = Raised TypeError
        {| storage.files := {[ "kb/issues.json" := FJson (JObj [("results", JNull)]) ]};
           storage.ceph := ∅ |}
  ∧ ∃ bw', save_knowledge "kb/issues.json" (PInt 1)
             {| files := {[ "kb/issues.json" := FJson (JObj [("results", JNull)]) ]};
                saved := [] |}
           = Raised TypeError bw'
           ∧ files bw' !! "kb/issues.json" = Some (FJson (JObj [("results", JInt 1)])).
Proof.
  destruct (local_storage_agrees_with_script "" sample_joinpath sample_relpath
              {| storage.is_local := true |} "org/repo" "Issue" "kb/issues.json"
              {| storage.files := {[ "kb/issues.json" := FJson (JObj [("results", JNull)]) ]};
                 storage.ceph := ∅ |}
              {| files := {[ "kb/issues.json" := FJson (JObj [("results", JNull)]) ]};
                 saved := [] |}
              eq_refl ltac:(by left) eq_refl)
    as (_ & _ & Hnull & _ & Hraise).
  destruct (Hnull (FJson (JObj [("results", JNull)])) eq_refl eq_refl) as [Hscript Hclass].
  destruct (Hraise (PInt 1) TypeError eq_refl) as [Hsave Hwritten].
  done.
Defined.

(** ** A whole run *)

Lemma analyse_issues_known joinpath project project_knowledge w :
  knows (joinpath project_knowledge "./issues.json")
    (filter (λ issue, issue_pull_request issue = None) (closed_issues project)) w →
  analyse_issues joinpath project project_knowledge w = Ok w.
Proof.
  intros (data & Hload & Hnew). unfold analyse_issues.
  rewrite Hload. cbn [mbind result_bind in_state]. by rewrite Hnew.
Qed.

Lemma analyse_pullrequests_known joinpath project project_knowledge w :
  knows (joinpath project_knowledge "./pull_requests.json") (closed_pulls project) w →
  analyse_pullrequests joinpath project project_knowledge w = Ok w.
Proof.
  intros (data & Hload & Hnew). unfold analyse_pullrequests.
  rewrite Hload. cbn [mbind result_bind in_state]. by rewrite Hnew.
Qed.

Lemma analyse_issues_steps joinpath project project_knowledge w w' :
  analyse_issues joinpath project project_knowledge w = Ok w' →
  knows (joinpath project_knowledge "./issues.json")
    (filter (λ issue, issue_pull_request issue = None) (closed_issues project)) w'
  ∧ (w' = w
     ∨ ∃ d', save_knowledge (joinpath project_knowledge "./issues.json") (PDict d') w = Ok w').
Proof.
  intros Hrun.
  destruct (load_previous_knowledge (joinpath project_knowledge "./issues.json") w)
    as [prev|] eqn:Hload.
  2: { unfold analyse_issues in Hrun. by rewrite Hload in Hrun. }
  destruct (get_only_new_entities prev
             (filter (λ issue, issue_pull_request issue = None) (closed_issues project)))
    as [new_issues|] eqn:Hnew.
  2: { unfold analyse_issues in Hrun. rewrite Hload in Hrun.
       cbn [mbind result_bind in_state] in Hrun. by rewrite Hnew in Hrun. }
  destruct (analyse_issues_cases joinpath project project_knowledge w _ _ Hload Hnew)
    as (d & d' & ids & -> & Hids & Hres & _ & Hkeys & Heq).
  rewrite Heq in Hrun. destruct (decide (length new_issues = 0%nat)) as [Hlen|Hlen].
  - injection Hrun as <-. split; [|by left]. exists (PDict d). split; [done|].
    rewrite Hnew. by destruct new_issues.
  - split; [|right; by exists d'].
    destruct (save_knowledge_dict _ _ _ _ Hrun) as (_ & Hreload & _).
    eexists. split; [exact Hreload|].
    apply (reload_knows_all KInt _ d d' ids); [done| |done|].
    + by eapply load_previous_knowledge_str_keyed.
    + intros k. rewrite Hkeys, Hres. split.
      * intros [?|(i & Hi & ->)]; [by left|]. right. by exists i.
      * intros [?|(i & Hi & ->)]; [by left|]. right. by exists i.
Qed.

Lemma analyse_pullrequests_steps joinpath project project_knowledge w w' :
  analyse_pullrequests joinpath project project_knowledge w = Ok w' →
  knows (joinpath project_knowledge "./pull_requests.json") (closed_pulls project) w'
  ∧ (w' = w
     ∨ ∃ d', save_knowledge (joinpath project_knowledge "./pull_requests.json") (PDict d') w
             = Ok w').
Proof.
  intros Hrun.
  destruct (load_previous_knowledge (joinpath project_knowledge "./pull_requests.json") w)
    as [prev|] eqn:Hload.
  2: { unfold analyse_pullrequests in Hrun. by rewrite Hload in Hrun. }
  destruct (get_only_new_entities prev (closed_pulls project)) as [new_pulls|] eqn:Hnew.
  2: { unfold analyse_pullrequests in Hrun. rewrite Hload in Hrun.
       cbn [mbind result_bind in_state] in Hrun. by rewrite Hnew in Hrun. }
  destruct (analyse_pullrequests_cases joinpath project project_knowledge w _ _ _
              Hload Hnew Hrun)
    as (d & ids & -> & Hids & Hres & [[Hnil ->]|(_ & d' & Hsave & Hkeys)]).
  - split; [|by left]. exists (PDict d). split; [done|]. by rewrite Hnew, Hnil.
  - split; [|right; by exists d'].
    destruct (save_knowledge_dict _ _ _ _ Hsave) as (_ & Hreload & _).
    eexists. split; [exact Hreload|].
    apply (reload_knows_all (λ n, KStr (Py.str n)) _ d d' ids); [done| |done|].
    + by eapply load_previous_knowledge_str_keyed.
    + intros k. rewrite Hkeys, Hres. split.
      * intros [?|(i & Hi & ->)]; [by left|]. right. by exists i.
      * intros [?|(i & Hi & ->)]; [by left|]. right. by exists i.
Qed.

Lemma save_knowledge_files_grow path w w' x :
  w' = w ∨ (∃ d', save_knowledge path (PDict d') w = Ok w') →
  is_Some (files w !! x) → is_Some (files w' !! x).
Proof.
  intros [->|(d' & Hsave)] Hx; [done|]. injection Hsave as <-. cbn [files].
  destruct (decide (path = x)) as [->|Hne].
  - by rewrite lookup_insert_eq.
  - by rewrite lookup_insert_ne.
Qed.

Section run.
Variable cwd : Path.
Variable joinpath : Path → string → Path.
Variable ancestors : Path → list Path.
Variable get_repo : string → GithubRepository.

Local Abbreviation settled := (settled joinpath get_repo).

Lemma path_exists_kept p s s' :
  directories s ⊆ directories s' →
  (∀ x, is_Some (files (knowledge s) !! x) → is_Some (files (knowledge s') !! x)) →
  path_exists p s = true → path_exists p s' = true.
Proof.
  intros Hdirs Hfiles. unfold path_exists.
  intros [Hd|Hf]%orb_true_iff; apply orb_true_iff.
  - left. apply bool_decide_eq_true in Hd. apply bool_decide_eq_true. by apply Hdirs.
  - right. apply bool_decide_eq_true in Hf. apply bool_decide_eq_true. by apply Hfiles.
Qed.

Lemma check_directory_exists p s :
  path_exists p (check_directory ancestors p s) = true
  ∧ knowledge (check_directory ancestors p s) = knowledge s
  ∧ directories s ⊆ directories (check_directory ancestors p s)
  ∧ (path_exists p s = true → check_directory ancestors p s = s).
Proof.
  unfold check_directory. destruct (path_exists p s) eqn:Hp; cbn [negb]; [done|].
  split; [|split; [done|split; [|done]]].
  - unfold path_exists. cbn [directories]. apply orb_true_iff. left.
    apply bool_decide_eq_true. set_solver.
  - cbn [directories]. set_solver.
Qed.

Lemma analyse_project_settles path s s1 project :
  analyse_project joinpath ancestors get_repo path s project = Ok s1 →
  settled path project s1 ∧ ∀ other, settled path other s → settled path other s1.
Proof.
  unfold analyse_project.
  set (repo := connect_to_source get_repo project).
  set (project_path := joinpath path ("./" +:+ full_name repo)).
  destruct (check_directory_exists project_path s) as (Hex & Hk & Hdirs & _).
  set (s0 := check_directory ancestors project_path s) in *.
  destruct (analyse_issues joinpath (listing repo) project_path (knowledge s0))
    as [w1|] eqn:Hissues; [|done].
  cbn [mbind result_bind raised_state].
  destruct (analyse_pullrequests joinpath (listing repo) project_path w1)
    as [w2|] eqn:Hpulls; [|done].
  cbn [mbind result_bind raised_state]. intros [= <-].
  destruct (analyse_issues_steps _ _ _ _ _ Hissues) as [Hki Hfi].
  destruct (analyse_pullrequests_steps _ _ _ _ _ Hpulls) as [Hkp Hfp].
  assert (∀ x, is_Some (files (knowledge s) !! x) → is_Some (files w2 !! x)) as Hgrow.
  { intros x Hx. eapply save_knowledge_files_grow; [exact Hfp|].
    eapply save_knowledge_files_grow; [exact Hfi|]. by rewrite Hk. }
  split.
  - unfold settled. fold repo project_path. cbn [knowledge]. split; [|split].
    + apply (path_exists_kept _ s0); [done| |done].
      cbn [knowledge]. intros x Hx. rewrite Hk in Hx. by apply Hgrow.
    + by apply (proj2 (knows_is_kept joinpath (listing repo) project_path _ _ w1 w2 Hki)).
    + done.
  - assert (∀ E (HN : Numbered E) (p : Path) (l : list E),
              knows p l (knowledge s) → knows p l w2) as Hkept.
    { intros E HN p l Hkn. rewrite <- Hk in Hkn.
      apply (proj2 (knows_is_kept joinpath (listing repo) project_path p l w1 w2
                      (proj1 (knows_is_kept joinpath (listing repo) project_path p l
                                (knowledge s0) w1 Hkn) Hissues))).
      exact Hpulls. }
    intros other (Hoex & Hoi & Hop). unfold settled. cbn [knowledge]. split; [|split].
    + apply (path_exists_kept _ s); [done|by cbn [knowledge]|done].
    + by apply Hkept.
    + by apply Hkept.
Qed.

Lemma analyse_project_settled path s project :
  settled path project s →
  analyse_project joinpath ancestors get_repo path s project = Ok s.
Proof.
  intros (Hex & Hi & Hp). unfold analyse_project.
  destruct (check_directory_exists
              (joinpath path ("./" +:+ full_name (connect_to_source get_repo project))) s)
    as (_ & _ & _ & Hsame).
  rewrite (Hsame Hex).
  rewrite (analyse_issues_known _ _ _ _ Hi). cbn [mbind result_bind raised_state].
  rewrite (analyse_pullrequests_known _ _ _ _ Hp). cbn [mbind result_bind raised_state].
  by destruct s.
Qed.

Lemma analyse_projects_settle path projects s s' :
  for_each projects (analyse_project joinpath ancestors get_repo path) s = Ok s' →
  (∀ other, settled path other s → settled path other s')
  ∧ Forall (λ project, settled path project s') projects.
Proof.
  revert s. induction projects as [|project projects IH]; intros s.
  - intros [= <-]. by split.
  - cbn [for_each].
    destruct (analyse_project joinpath ancestors get_repo path s project)
      as [s1|] eqn:Hstep; [|done].
    cbn [mbind result_bind in_state]. intros Hrest.
    destruct (analyse_project_settles _ _ _ _ Hstep) as [Hown Hkeep].
    destruct (IH _ Hrest) as [Hkeep' Hall]. split.
    + intros other Ho. by apply Hkeep', Hkeep.
    + constructor; [by apply Hkeep'|done].
Qed.

(** X17: a run of [analyse_projects] that returns, started again on the
    state it left with the same repositories listed by the service, changes
    nothing: every directory is there, no entity of any project is new, no
    file is written and [save_knowledge] is not called, also when two
    projects share a directory. *)
Theorem second_run_changes_nothing (projects : list (string * string)) (s s' : disk) :
  analyse_projects cwd joinpath ancestors get_repo projects s = Ok s' →
  analyse_projects cwd joinpath ancestors get_repo projects s' = Ok s'.
Proof.
  unfold analyse_projects. intros Hrun.
  destruct (analyse_projects_settle _ _ _ _ Hrun) as [_ Hall].
  clear Hrun. induction Hall as [|project projects Hp _ IH]; [done|].
  cbn [for_each]. rewrite (analyse_project_settled _ _ _ Hp). by cbn [mbind result_bind in_state].
Qed.
End run.

Lemma second_run_changes_nothing_witness :
  ∃ s', analyse_projects "" sample_joinpath sample_ancestors sample_get_repo
          [("repo", "org"); ("other", "org")]
          {| knowledge := {| files := ∅; saved := [] |}; directories := ∅ |} = Ok s'
        ∧ length (saved (knowledge s')) = 4%nat
        ∧ analyse_projects "" sample_joinpath sample_ancestors sample_get_repo
            [("repo", "org"); ("other", "org")] s' = Ok s'.
Proof.
  destruct (analyse_projects "" sample_joinpath sample_ancestors sample_get_repo
              [("repo", "org"); ("other", "org")]
              {| knowledge := {| files := ∅; saved := [] |}; directories := ∅ |})
    as [s'|] eqn:Hrun; [|by vm_compute in Hrun].
  exists s'. split; [done|]. split.
  - vm_compute in Hrun. by injection Hrun as <-.
  - exact (second_run_changes_nothing "" sample_joinpath sample_ancestors sample_get_repo
             [("repo", "org"); ("other", "org")] _ s' Hrun).
Defined.
